(** * The game-action endpoint: gateway and dispatcher

    A shallow embedding of the serverless endpoint of this repository and
    the properties its specification states about it.

    Two revisions of the endpoint are in the sources:
    - [src/unnamed/part_000], the earlier revision, embedded in
      [Module Earlier];
    - [src/api/index.js], the later revision, embedded in [Module Later].
      That file holds two copies of the later revision; the first one stops
      in the middle of its second [case].  Their [getBody], [callSupabase],
      [logAction] and the head of the exported handler are the same text, so
      one embedding serves both; the only complete [case] of the first
      copy is given as [Later.case_getBalanceAndTaskStatus_games].

    Modelling choices.
    - JSON data is the inductive type [json]; a JavaScript value that may
      also be [undefined] is an [option json].  A template literal may
      throw on such a value; that is kept.
    - JavaScript numbers are IEEE doubles.  The code only tests them for
      truthiness and for [< 0], and prints them in template literals, so
      they are kept abstract behind the class [JsNumber].
    - [JSON.parse] and [JSON.stringify] are not re-implemented: a request
      carries what [JSON.parse] makes of its text, a response body is the
      value that is serialised.
    - The network is an oracle [network]: the [n]-th outbound request of
      an invocation, when issued, settles the way the oracle says.
    - Effects are threaded through a small state-and-exception monad [M];
      the state is the list of observable events. *)

From Stdlib Require Import String Ascii List ZArith Bool Lia DecimalString.
Import ListNotations.
Open Scope list_scope.
Open Scope string_scope.
Set Warnings "-register-all".

(* ================================================================== *)
(** * JavaScript values *)
(* ================================================================== *)

(** What the code needs of a JavaScript number. *)
Class JsNumber (num : Type) : Type := {
  (** [!n]: true for [+0], [-0] and [NaN] *)
  num_is_falsy : num -> bool;
  (** [n < 0] *)
  num_lt_zero : num -> bool;
  (** [`${n}`] *)
  num_to_string : num -> string;
  (** the number an integer literal of the source denotes *)
  num_of_Z : Z -> num
}.

(** Decimal notation of an integer, as [`${response.status}`] prints a
    status code. *)
Definition Z_to_string (z : Z) : string :=
  NilZero.string_of_int (Z.to_int z).

(** The integers as JavaScript numbers; the printing agrees with
    JavaScript's below [10^21] in magnitude. *)
#[export] Instance JsNumber_Z : JsNumber Z := {
  num_is_falsy z := Z.eqb z 0;
  num_lt_zero z := Z.ltb z 0;
  num_to_string := Z_to_string;
  num_of_Z z := z
}.

Inductive json {num : Type} : Type :=
| JNull
| JBool (b : bool)
| JNum (n : num)
| JStr (s : string)
| JArr (items : list json)
| JObj (props : list (string * json)).
Arguments json : clear implicits.

(** A value that may be [undefined] ([None]). *)
Definition value (num : Type) : Type := option (json num).

(** A plain object under construction: properties in insertion order,
    each possibly [undefined]. *)
Definition object (num : Type) : Type := list (string * value num).

(** How a promise settles; also the outcome of a block that may throw.
    [Rejected m] carries the [message] of the error. *)
Inductive settled (A : Type) : Type :=
| Resolved (a : A)
| Rejected (message : string).
Arguments Resolved {A} a.
Arguments Rejected {A} message.

(** The message of the TypeError V8 throws when a value has no string
    form. *)
Definition cannot_convert : string :=
  "Cannot convert object to primitive value".

Section Values.
Context {num : Type} `{JsNumber num}.

(** [!!v] *)
Definition truthy_json (j : json num) : bool :=
  match j with
  | JNull => false
  | JBool b => b
  | JNum n => negb (num_is_falsy n)
  | JStr s => negb (s =? "")
  | JArr _ => true
  | JObj _ => true
  end.

Definition truthy (v : value num) : bool :=
  match v with
  | None => false
  | Some j => truthy_json j
  end.

(** [typeof v === 'number'] *)
Definition is_number (v : value num) : bool :=
  match v with
  | Some (JNum _) => true
  | _ => false
  end.

(** Own property of an object by key; the first binding is the property
    (the objects [JSON.parse] returns have distinct keys). *)
Fixpoint get_prop (props : list (string * json num)) (k : string) : value num :=
  match props with
  | [] => None
  | (k', j) :: rest => if k' =? k then Some j else get_prop rest k
  end.

(** [j.k] for one of the property names the code reads ([userId],
    [action], [points], ...): none of them is a property of an array, a
    string, a number or a boolean.  On [null] the access throws; no call
    site reaches it with [null]. *)
Definition dot (j : json num) (k : string) : value num :=
  match j with
  | JObj props => get_prop props k
  | _ => None
  end.

(** The rest of an object pattern: the properties not named in it. *)
Definition rest_props (excluded : list string) (props : list (string * json num))
  : list (string * json num) :=
  filter (fun kv => negb (existsb (String.eqb (fst kv)) excluded)) props.

(** [Array.isArray(j) && j.length === 1 ? j[0] : j], the normalisation
    at the end of [callSupabase]. *)
Definition unwrap_single (j : json num) : json num :=
  match j with
  | JArr [x] => x
  | _ => j
  end.

(** [`${j}`], the ToString of a template literal.  It looks for the
    method [toString] of the value.  A parsed object has the one of
    [Object.prototype] unless it has a property [toString] of its own;
    that one, coming from JSON, is no function, [valueOf] gives back the
    object, and the conversion throws a TypeError.  An array joins the
    string forms of its elements with commas, [null] counting as empty,
    and throws when one of them does. *)
Fixpoint json_to_string (j : json num) : settled string :=
  match j with
  | JNull => Resolved "null"
  | JBool true => Resolved "true"
  | JBool false => Resolved "false"
  | JNum n => Resolved (num_to_string n)
  | JStr s => Resolved s
  | JArr items =>
      (fix join (l : list (json num)) : settled string :=
         let elem x :=
           match x with
           | JNull => Resolved ""
           | _ => json_to_string x
           end in
         match l with
         | [] => Resolved ""
         | [x] => elem x
         | x :: rest =>
             match elem x with
             | Rejected m => Rejected m
             | Resolved a =>
                 match join rest with
                 | Rejected m => Rejected m
                 | Resolved b => Resolved (a ++ "," ++ b)
                 end
             end
         end) items
  | JObj props =>
      match get_prop props "toString" with
      | Some _ => Rejected cannot_convert
      | None => Resolved "[object Object]"
      end
  end.

Definition to_string (v : value num) : settled string :=
  match v with
  | None => Resolved "undefined"
  | Some j => json_to_string j
  end.

(** What [JSON.stringify] keeps of an object literal: the properties
    whose value is not [undefined], in order.  Nested values come from
    parsed JSON and hold no [undefined]. *)
Fixpoint stringify_object (o : object num) : list (string * json num) :=
  match o with
  | [] => []
  | (k, Some j) :: rest => (k, j) :: stringify_object rest
  | (_, None) :: rest => stringify_object rest
  end.

End Values.

(** [s.includes(sub)] *)
Fixpoint includes (s sub : string) : bool :=
  String.prefix sub s ||
  match s with
  | EmptyString => false
  | String _ rest => includes rest sub
  end.

(* ================================================================== *)
(** * Requests, responses and effects *)
(* ================================================================== *)

(** [process.env]: a variable is a string or is not set. *)
Record config : Type := {
  SUPABASE_URL : option string;
  SUPABASE_ANON_KEY : option string
}.

(** [!!x] for an environment variable. *)
Definition env_truthy (x : option string) : bool :=
  match x with
  | Some s => negb (s =? "")
  | None => false
  end.

(** [`${x}`] for an environment variable. *)
Definition env_to_string (x : option string) : string :=
  match x with
  | Some s => s
  | None => "undefined"
  end.

(** Assignment [headers[k] = v] on an object literal. *)
Fixpoint set_header (k v : string) (headers : list (string * string))
  : list (string * string) :=
  match headers with
  | [] => [(k, v)]
  | (k', v') :: rest =>
      if k' =? k then (k, v) :: rest else (k', v') :: set_header k v rest
  end.

Fixpoint get_header (k : string) (headers : list (string * string))
  : option string :=
  match headers with
  | [] => None
  | (k', v) :: rest => if k' =? k then Some v else get_header k rest
  end.

Section Effects.
Context {num : Type}.

(** The arguments of a call of [fetch(url, fetchOptions)]. *)
Record fetch_request : Type := {
  rq_url : string;
  rq_method : string;
  rq_headers : list (string * string);
  (** the value [JSON.stringify] serialises, or [null] *)
  rq_body : option (json num)
}.

(** What the code reads of a [Response]. *)
Record fetch_response : Type := {
  resp_status : Z;
  (** [await response.json()] *)
  resp_json : settled (json num);
  (** [await response.text()] *)
  resp_text : settled string
}.

(** [response.ok] *)
Definition resp_ok (r : fetch_response) : bool :=
  (200 <=? resp_status r)%Z && (resp_status r <=? 299)%Z.

(** The network: how the [n]-th outbound request of an invocation
    settles ([n] counts from 0). *)
Definition network : Type := nat -> fetch_request -> settled fetch_response.

(** The text of the request body and what [JSON.parse] makes of it. *)
Inductive raw_body : Type :=
| BodyEmpty                          (** no data at all *)
| BodyMalformed                      (** text that [JSON.parse] rejects *)
| BodyJson (j : json num)            (** text that parses to [j] *)
| BodyStreamError (message : string) (** the stream emits ['error'] *).

Record request : Type := {
  req_method : string;
  req_body : raw_body
}.

(** What is written to [res]: status, headers, and the body given to
    [res.end] ([None] when it is called without one), before
    serialisation. *)
Record http_response : Type := {
  res_status : Z;
  res_headers : list (string * string);
  res_body : option (json num)
}.

Inductive event : Type :=
| EvReadBody                          (** the request stream is consumed *)
| EvFetch (rq : fetch_request)        (** [fetch] is called *)
| EvConsoleError (args : list string) (** [console.error(...)] *)
| EvUnhandledRejection (message : string)
    (** a promise rejects and nothing handles it *).

Definition is_fetch (e : event) : bool :=
  match e with
  | EvFetch _ => true
  | _ => false
  end.


(** The state threaded through an invocation. *)
Record world : Type := {
  (** events of the awaited control flow, oldest first *)
  trace : list event;
  (** events of promises nobody awaits: they happen when those settle *)
  background : list event;
  (** number of outbound requests issued so far *)
  issued : nat
}.

Definition start : world :=
  {| trace := []; background := []; issued := 0 |}.

(** Computations that read and extend the world and may throw. *)
Definition M (A : Type) : Type := world -> settled A * world.

Definition ret {A} (a : A) : M A := fun w => (Resolved a, w).

Definition throw {A} (message : string) : M A := fun w => (Rejected message, w).

Definition bind {A B} (c : M A) (k : A -> M B) : M B :=
  fun w =>
    match c w with
    | (Resolved a, w') => k a w'
    | (Rejected m, w') => (Rejected m, w')
    end.

(** [try { c } catch (error) { handler(error.message) }] *)
Definition try_catch {A} (c : M A) (handler : string -> M A) : M A :=
  fun w =>
    match c w with
    | (Resolved a, w') => (Resolved a, w')
    | (Rejected m, w') => handler m w'
    end.

Definition emit (e : event) : M unit :=
  fun w => (Resolved tt,
            {| trace := trace w ++ [e]%list;
               background := background w;
               issued := issued w |}).

(** [await p] for a promise whose outcome is known. *)
Definition await {A} (p : settled A) : M A := fun w => (p, w).

(** [await fetch(url, fetchOptions)] *)
Definition fetch (net : network) (rq : fetch_request) : M fetch_response :=
  fun w =>
    (net (issued w) rq,
     {| trace := trace w ++ [EvFetch rq]%list;
        background := background w;
        issued := S (issued w) |}).

(** [c.catch(err => on_reject(err.message))] with nobody awaiting the
    result.  [c] runs up to its first [await] at once: the requests it
    issues are part of the caller's trace.  What it prints after that,
    and what the [.catch] callback does when [c] rejects, happens when
    the promise settles: it goes to [background].  When the callback
    itself throws, the promise [.catch] returned rejects and nothing
    handles it.  The caller goes on whatever the outcome. *)
Definition detach {A} (c : M A) (on_reject : string -> M unit) : M unit :=
  fun w =>
    let '(r, w') := c {| trace := []; background := []; issued := issued w |} in
    (Resolved tt,
     {| trace := trace w ++ filter is_fetch (trace w');
        background :=
          background w ++ filter (fun e => negb (is_fetch e)) (trace w')
            ++ background w'
            ++ match r with
               | Resolved _ => []
               | Rejected m =>
                   let '(r', w'') :=
                     on_reject m
                       {| trace := []; background := []; issued := issued w' |} in
                   trace w''
                     ++ match r' with
                        | Resolved _ => []
                        | Rejected m' => [EvUnhandledRejection m']
                        end
               end;
        issued := issued w' |})%list.

(** The outbound requests of a trace. *)
Fixpoint fetches (t : list event) : list fetch_request :=
  match t with
  | [] => []
  | EvFetch rq :: rest => rq :: fetches rest
  | _ :: rest => fetches rest
  end.

End Effects.

Arguments fetch_request : clear implicits.
Arguments fetch_response : clear implicits.
Arguments network : clear implicits.
Arguments raw_body : clear implicits.
Arguments request : clear implicits.
Arguments http_response : clear implicits.
Arguments event : clear implicits.
Arguments world : clear implicits.
Arguments M : clear implicits.

Declare Scope js_scope.
Delimit Scope js_scope with js.
Notation "x <- c ;; k" := (bind c (fun x => k))
  (at level 61, c at next level, right associativity) : js_scope.
Notation "c ;; k" := (bind c (fun _ => k))
  (at level 61, right associativity) : js_scope.
Open Scope js_scope.

(* ================================================================== *)
(** * What both revisions share *)
(* ================================================================== *)

Section Shared.
Context {num : Type} `{JsNumber num}.

(** [v === 'literal'] *)
Definition is_string (v : value num) (literal : string) : bool :=
  match v with
  | Some (JStr s) => s =? literal
  | _ => false
  end.

(** [v < 0] where [v] is a number; the code evaluates it only after
    [typeof v !== 'number'] came out false. *)
Definition lt_zero (v : value num) : bool :=
  match v with
  | Some (JNum n) => num_lt_zero n
  | _ => false
  end.

(** [`${v}`] where the code builds a string; it may throw. *)
Definition print (v : value num) : M num string := await (to_string v).

(** [a || b] *)
Definition or_else (a b : value num) : value num :=
  if truthy a then a else b.

(** [const { userId, action, ...data } = body].  Destructuring [null]
    throws a TypeError (the message is V8's).  A string, number,
    boolean or array has neither property; its rest object is never
    read, because the check that follows throws. *)
Definition destructure (body : json num)
  : M num (value num * value num * list (string * json num)) :=
  match body with
  | JNull =>
      throw "Cannot destructure property 'userId' of 'body' as it is null."
  | JObj props =>
      ret (get_prop props "userId", get_prop props "action",
           rest_props ["userId"; "action"] props)
  | _ => ret (None, None, [])
  end.

(** The three [res.setHeader] calls at the head of the handler. *)
Definition cors_headers : list (string * string) :=
  [("Access-Control-Allow-Origin", "*");
   ("Access-Control-Allow-Methods", "POST, OPTIONS");
   ("Access-Control-Allow-Headers", "Content-Type, Authorization")].

(** [res.writeHead(status, { 'Content-Type': 'application/json' });
    res.end(JSON.stringify(body))] after the CORS headers were set. *)
Definition json_response (status : Z) (body : json num) : http_response num :=
  {| res_status := status;
     res_headers := (cors_headers ++ [("Content-Type", "application/json")])%list;
     res_body := Some body |}.

(** [{ ok: false, error: message }] *)
Definition error_body (message : string) : json num :=
  JObj [("ok", JBool false); ("error", JStr message)].

(** [{ ok: true, action: action, ...responseData }] as serialised.
    No handler payload has a property [ok] or [action], so the spread
    appends. *)
Definition success_body (action : value num) (responseData : object num)
  : json num :=
  JObj (stringify_object
          (("ok", Some (JBool true)) :: ("action", action) :: responseData)).

(** [{ action: action, user_id: userId, payload: payload }], the row
    [logAction] inserts. *)
Definition audit_entry (userId action : value num) (payload : json num)
  : json num :=
  JObj (stringify_object
          [("action", action); ("user_id", userId); ("payload", Some payload)]).

(** [{ success: true, data: null }] *)
Definition no_content : json num :=
  JObj [("success", JBool true); ("data", JNull)].

(** An invocation of the exported handler: what the client receives and
    what happened on the way. *)
Record invocation : Type := {
  response : http_response num;
  final : world num
}.

(** [console.error(...)] in the handler's own [catch]. *)
Definition log_error (message : string) (w : world num) : world num :=
  {| trace := app (trace w) [EvConsoleError ["Error processing request: " ++ message]];
     background := background w;
     issued := issued w |}.

End Shared.
Arguments invocation : clear implicits.

(* ================================================================== *)
(** * The later revision: [src/api/index.js] *)
(* ================================================================== *)

Module Later.
Section Code.
Context {num : Type} `{JsNumber num}.
(** [process.env], read at module load *)
Variable env : config.
Variable net : network num.

Definition getBody (req : request num) : M num (json num) :=
  emit EvReadBody ;;
  match req_body req with
  | BodyEmpty => ret (JObj [])
  | BodyJson j => ret j
  | BodyMalformed => throw "Invalid JSON format in request body."
  | BodyStreamError message => throw message
  end.

(** The [Prefer] header of [callSupabase]: [if ... else if ...]. *)
Definition prefer (table method : string) (headers : list (string * string))
  : list (string * string) :=
  if (method =? "POST") && (table =? "actions_log") then
    set_header "Prefer" "return=minimal" headers
  else if (method =? "PATCH") || (method =? "POST") then
    set_header "Prefer" "return=representation" headers
  else headers.

(** The locals [url], [headers] and [fetchOptions] of [callSupabase]:
    the arguments it gives to [fetch]. *)
Definition fetchOptions (table method : string) (body : json num)
    (filter : string) : fetch_request num :=
  let url :=
    env_to_string (SUPABASE_URL env) ++ "/rest/v1/" ++ table
      ++ (if filter =? "" then "" else "?" ++ filter) in
  let headers :=
    [("apikey", env_to_string (SUPABASE_ANON_KEY env));
     ("Authorization", "Bearer " ++ env_to_string (SUPABASE_ANON_KEY env));
     ("Content-Type", "application/json");
     ("Accept", "application/json")] in
  let headers := prefer table method headers in
  {| rq_url := url;
     rq_method := method;
     rq_headers := headers;
     rq_body := if truthy_json body then Some body else None |}.

Definition callSupabase (table method : string) (body : json num)
    (filter : string) : M num (json num) :=
  if negb (env_truthy (SUPABASE_URL env))
     || negb (env_truthy (SUPABASE_ANON_KEY env)) then
    throw "Supabase credentials are not configured."
  else
    try_catch
      (response <- fetch net (fetchOptions table method body filter) ;;
       if resp_ok response then
         if (resp_status response =? 204)%Z then ret no_content
         else
           jsonResponse <- await (resp_json response) ;;
           ret (unwrap_single jsonResponse)
       else
         errorText <- await (resp_text response) ;;
         throw ("Supabase API Error " ++ Z_to_string (resp_status response)
                  ++ ": " ++ errorText))
      (fun message =>
         emit (EvConsoleError ["Supabase Call Failed:"; message]) ;;
         throw ("Database operation failed: " ++ message)).

(** Fire and forget: the call is not awaited. *)
Definition logAction (userId action : value num) (payload : json num)
  : M num unit :=
  detach
    (callSupabase "actions_log" "POST" (audit_entry userId action payload) "")
    (fun message =>
       action' <- print action ;;
       emit (EvConsoleError ["Failed to log action " ++ action' ++ ":"; message])).

Definition case_getBalanceAndTaskStatus (userId : value num) : M num (object num) :=
  userId' <- print userId ;;
  userData <- callSupabase "users" "GET" JNull
    ("id=eq." ++ userId'
       ++ "&select=points,usdt,ticket,join_status,ads_left") ;;
  if negb (truthy_json userData) then
    throw "User data not found. Please ensure user registration/upsert is implemented."
  else
    ret [("points", dot userData "points");
         ("usdt", dot userData "usdt");
         ("ticket", dot userData "ticket");
         ("joinTaskStatus", dot userData "join_status");
         ("adsLeft", dot userData "ads_left")].

(** The same [case] in the first, cut-off copy of the file. *)
Definition case_getBalanceAndTaskStatus_games (userId : value num)
  : M num (object num) :=
  userId' <- print userId ;;
  userData <- callSupabase "users" "GET" JNull
    ("id=eq." ++ userId'
       ++ "&select=points,usdt,ticket,join_status,ads_left,games_played") ;;
  if negb (truthy_json userData) then
    throw "User data not found. Please ensure user registration/upsert is implemented."
  else
    ret [("points", dot userData "points");
         ("usdt", dot userData "usdt");
         ("ticket", dot userData "ticket");
         ("joinTaskStatus", dot userData "join_status");
         ("adsLeft", dot userData "ads_left");
         ("gamesPlayed", dot userData "games_played")].

Definition case_addPoints (data : list (string * json num)) : M num (object num) :=
  let points := get_prop data "points" in
  if negb (is_number points) || lt_zero points then
    throw "Invalid points value."
  else
    points' <- print points ;;
    ret [("message",
          Some (JStr ("Requested addition of " ++ points' ++ " points.")))].

Definition case_claimTaskReward (data : list (string * json num))
  : M num (object num) :=
  let task := get_prop data "task" in
  let reward := get_prop data "reward" in
  if negb (is_string task "joinChannel") || negb (is_number reward) then
    throw "Invalid task data."
  else
    reward' <- print reward ;;
    task' <- print task ;;
    ret [("message",
          Some (JStr ("Requested claim for " ++ reward'
                        ++ " tickets for " ++ task' ++ ".")))].

Definition case_watchAd (data : list (string * json num)) : M num (object num) :=
  let adReward := get_prop data "reward" in
  if negb (is_number adReward) then throw "Invalid ad reward."
  else
    adReward' <- print adReward ;;
    ret [("message",
          Some (JStr ("Requested ad watch and " ++ adReward'
                        ++ " ticket addition.")))].

Definition case_executeSwap (data : list (string * json num))
  : M num (object num) :=
  let newPoints := get_prop data "newPoints" in
  let newUsdt := get_prop data "newUsdt" in
  if negb (is_number newPoints) || negb (truthy newUsdt) then
    throw "Invalid swap data."
  else
    ret [("message", Some (JStr "Swap request sent for processing."));
         ("newPoints", newPoints);
         ("newUsdt", newUsdt)].

(** [switch (action) { ... }] *)
Definition dispatch (userId action : value num)
    (data : list (string * json num)) : M num (object num) :=
  if is_string action "getBalanceAndTaskStatus" then
    case_getBalanceAndTaskStatus userId
  else if is_string action "addPoints" then case_addPoints data
  else if is_string action "claimTaskReward" then case_claimTaskReward data
  else if is_string action "watchAd" then case_watchAd data
  else if is_string action "executeSwap" then case_executeSwap data
  else if is_string action "spin" then
    ret [("message", Some (JStr "Spin request sent."))]
  else if is_string action "ref" then
    ret [("message", Some (JStr "Referral data requested."))]
  else
    action' <- print action ;;
    throw ("Unknown action: " ++ action').

(** The [try] block of the handler; it resolves to the body of the
    success response. *)
Definition try_block (req : request num) : M num (json num) :=
  body <- getBody req ;;
  uad <- destructure body ;;
  let '(userId, action, data) := uad in
  if negb (truthy userId) || negb (truthy action) then
    throw "Missing required parameters: userId or action."
  else
    logAction userId action body ;;
    responseData <- dispatch userId action data ;;
    ret (success_body action responseData).

(** The status of the [catch] block. *)
Definition statusCode (message : string) : Z :=
  if includes message "JSON" || includes message "Missing" then 400%Z
  else 500%Z.

(** [module.exports = async (req, res) => { ... }] *)
Definition handler (req : request num) : invocation num :=
  if req_method req =? "OPTIONS" then
    {| response :=
         {| res_status := 204; res_headers := cors_headers; res_body := None |};
       final := start |}
  else if negb (req_method req =? "POST") then
    {| response :=
         json_response 405
           (error_body "Method Not Allowed. Only POST is supported.");
       final := start |}
  else
    match try_block req start with
    | (Resolved body, w) =>
        {| response := json_response 200 body; final := w |}
    | (Rejected message, w) =>
        {| response := json_response (statusCode message) (error_body message);
           final := log_error message w |}
    end.

End Code.
End Later.

(* ================================================================== *)
(** * The earlier revision: [src/unnamed/part_000] *)
(* ================================================================== *)

Module Earlier.
Section Code.
Context {num : Type} `{JsNumber num}.
Variable env : config.
Variable net : network num.

(** The promise the handler builds in place to read the body: the text
    goes to [JSON.parse] as it is, empty or not. *)
Definition getBody (req : request num) : M num (json num) :=
  emit EvReadBody ;;
  match req_body req with
  | BodyEmpty => throw "Invalid JSON format in request body."
  | BodyJson j => ret j
  | BodyMalformed => throw "Invalid JSON format in request body."
  | BodyStreamError message => throw message
  end.

(** The [Prefer] header of [callSupabase]: two [if]s in a row. *)
Definition prefer (table method : string) (headers : list (string * string))
  : list (string * string) :=
  let headers :=
    if (method =? "POST") && (table =? "actions_log") then
      set_header "Prefer" "return=minimal" headers
    else headers in
  if (method =? "PATCH") || (method =? "POST") then
    set_header "Prefer" "return=representation" headers
  else headers.

(** The locals [url], [headers] and [fetchOptions] of [callSupabase].
    A variable that is not set is printed as [undefined] in the address
    and in the headers. *)
Definition fetchOptions (table method : string) (body : json num)
    (filter : string) : fetch_request num :=
  let url :=
    env_to_string (SUPABASE_URL env) ++ "/rest/v1/" ++ table
      ++ (if filter =? "" then "" else "?" ++ filter) in
  let headers :=
    [("apikey", env_to_string (SUPABASE_ANON_KEY env));
     ("Authorization", "Bearer " ++ env_to_string (SUPABASE_ANON_KEY env));
     ("Content-Type", "application/json");
     ("Accept", "application/json")] in
  let headers := prefer table method headers in
  {| rq_url := url;
     rq_method := method;
     rq_headers := headers;
     rq_body := if truthy_json body then Some body else None |}.

(** No check of the configuration in this revision. *)
Definition callSupabase (table method : string) (body : json num)
    (filter : string) : M num (json num) :=
  try_catch
    (response <- fetch net (fetchOptions table method body filter) ;;
     if resp_ok response then
       if (resp_status response =? 204)%Z then ret no_content
       else
         jsonResponse <- await (resp_json response) ;;
         ret (unwrap_single jsonResponse)
     else
       errorText <- await (resp_text response) ;;
       throw ("Supabase Error: " ++ Z_to_string (resp_status response)
                ++ " - " ++ errorText))
    (fun message =>
       emit (EvConsoleError ["Supabase Call Failed:"; message]) ;;
       throw ("Database operation failed: " ++ message)).

Definition logAction (userId action : value num) (payload : json num)
  : M num unit :=
  detach
    (callSupabase "actions_log" "POST" (audit_entry userId action payload) "")
    (fun message =>
       action' <- print action ;;
       userId' <- print userId ;;
       emit (EvConsoleError ["Failed to log action " ++ action'
                               ++ " for user " ++ userId' ++ ":";
                             message])).

Definition case_getBalanceAndTaskStatus (userId : value num) : M num (object num) :=
  userId' <- print userId ;;
  userData <- callSupabase "users" "GET" JNull
    ("id=eq." ++ userId'
       ++ "&select=points,usdt,ticket,join_status,ads_left") ;;
  if negb (truthy_json userData) then
    throw "User not found in DB. Please ensure user registration/upsert is handled."
  else
    ret [("points", dot userData "points");
         ("usdt", dot userData "usdt");
         ("ticket", dot userData "ticket");
         ("joinTaskStatus",
          or_else (dot userData "join_status") (Some (JStr "join")));
         ("adsLeft",
          or_else (dot userData "ads_left") (Some (JNum (num_of_Z 300))))].

Definition case_addPoints (userId : value num)
    (data : list (string * json num)) : M num (object num) :=
  let points := get_prop data "points" in
  if negb (is_number points) || lt_zero points then
    throw "Invalid points value."
  else
    userId' <- print userId ;;
    updatedUserPoints <- callSupabase "users" "PATCH"
      (JObj (stringify_object [("points", points)]))
      ("id=eq." ++ userId') ;;
    points' <- print points ;;
    ret [("message",
          Some (JStr ("Successfully added " ++ points' ++ " points.")))].

Definition case_claimTaskReward (userId : value num)
    (data : list (string * json num)) : M num (object num) :=
  let task := get_prop data "task" in
  let reward := get_prop data "reward" in
  if negb (is_string task "joinChannel") || negb (is_number reward) then
    throw "Invalid task or reward data."
  else
    userId' <- print userId ;;
    updatedUserTask <- callSupabase "users" "PATCH"
      (JObj (stringify_object
               [("ticket", reward); ("join_status", Some (JStr "claimed"))]))
      ("id=eq." ++ userId' ++ "&join_status=eq.check") ;;
    if negb (truthy_json updatedUserTask) then
      throw "Claim failed. Task not ready or already claimed."
    else
      reward' <- print reward ;;
      task' <- print task ;;
      ret [("message",
            Some (JStr ("Reward of " ++ reward'
                          ++ " tickets claimed for " ++ task' ++ ".")))].

Definition case_watchAd (userId : value num)
    (data : list (string * json num)) : M num (object num) :=
  let adReward := get_prop data "reward" in
  if negb (is_number adReward) then throw "Invalid ad reward value."
  else
    userId' <- print userId ;;
    updatedUserAd <- callSupabase "users" "PATCH"
      (JObj (stringify_object
               [("ticket", adReward);
                ("ads_left", Some (JNum (num_of_Z (-1))))]))
      ("id=eq." ++ userId' ++ "&ads_left=gt.0") ;;
    if negb (truthy_json updatedUserAd) then
      throw "Ad claim failed. No ads left to watch."
    else
      adReward' <- print adReward ;;
      ret [("message",
            Some (JStr ("Ad watched. " ++ adReward' ++ " ticket added.")))].

Definition case_executeSwap (userId : value num)
    (data : list (string * json num)) : M num (object num) :=
  let pointsToSwap := get_prop data "points" in
  let newPoints := get_prop data "newPoints" in
  let newUsdt := get_prop data "newUsdt" in
  if negb (is_number pointsToSwap) || negb (is_number newPoints)
     || negb (truthy newUsdt) then
    throw "Invalid swap data."
  else
    userId' <- print userId ;;
    updatedUserSwap <- callSupabase "users" "PATCH"
      (JObj (stringify_object [("points", newPoints); ("usdt", newUsdt)]))
      ("id=eq." ++ userId') ;;
    ret [("message", Some (JStr "Swap successful"));
         ("newPoints", newPoints);
         ("newUsdt", newUsdt)].

(** [switch (action) { ... }] *)
Definition dispatch (userId action : value num)
    (data : list (string * json num)) : M num (object num) :=
  if is_string action "getBalanceAndTaskStatus" then
    case_getBalanceAndTaskStatus userId
  else if is_string action "addPoints" then case_addPoints userId data
  else if is_string action "claimTaskReward" then
    case_claimTaskReward userId data
  else if is_string action "watchAd" then case_watchAd userId data
  else if is_string action "executeSwap" then case_executeSwap userId data
  else if is_string action "spin" then
    ret [("message",
          Some (JStr "Spin executed successfully, checking for reward..."))]
  else if is_string action "ref" then
    ret [("message", Some (JStr "Referral menu data prepared."))]
  else
    action' <- print action ;;
    throw ("Unknown action: " ++ action').

Definition try_block (req : request num) : M num (json num) :=
  body <- getBody req ;;
  uad <- destructure body ;;
  let '(userId, action, data) := uad in
  if negb (truthy userId) || negb (truthy action) then
    throw "Missing required parameters: userId or action."
  else
    logAction userId action body ;;
    responseData <- dispatch userId action data ;;
    ret (success_body action responseData).

(** [module.exports = async (req, res) => { ... }]; every error caught
    is answered with status 500. *)
Definition handler (req : request num) : invocation num :=
  if req_method req =? "OPTIONS" then
    {| response :=
         {| res_status := 204; res_headers := cors_headers; res_body := None |};
       final := start |}
  else if negb (req_method req =? "POST") then
    {| response :=
         json_response 405
           (error_body "Method Not Allowed. Only POST is supported.");
       final := start |}
  else
    match try_block req start with
    | (Resolved body, w) =>
        {| response := json_response 200 body; final := w |}
    | (Rejected message, w) =>
        {| response := json_response 500 (error_body message);
           final := log_error message w |}
    end.

End Code.
End Earlier.

(* ================================================================== *)
(** * Vocabulary of the properties *)
(* ================================================================== *)

(** The two revisions under one name each. *)
Inductive revision : Type :=
| earlier   (** [src/unnamed/part_000] *)
| later     (** [src/api/index.js] *).

Section Vocabulary.
Context {num : Type} `{JsNumber num}.
Implicit Types (env : config) (net : network num) (w : world num).
Implicit Types (userId action : value num).

Definition fetchOptions_of (rev : revision) env
  : string -> string -> json num -> string -> fetch_request num :=
  match rev with
  | earlier => Earlier.fetchOptions env
  | later => Later.fetchOptions env
  end.

Definition callSupabase_of (rev : revision) env net
  : string -> string -> json num -> string -> M num (json num) :=
  match rev with
  | earlier => Earlier.callSupabase env net
  | later => Later.callSupabase env net
  end.

Definition logAction_of (rev : revision) env net
  : value num -> value num -> json num -> M num unit :=
  match rev with
  | earlier => Earlier.logAction env net
  | later => Later.logAction env net
  end.

Definition dispatch_of (rev : revision) env net
  : value num -> value num -> list (string * json num) -> M num (object num) :=
  match rev with
  | earlier => Earlier.dispatch env net
  | later => Later.dispatch env net
  end.

Definition try_block_of (rev : revision) env net : request num -> M num (json num) :=
  match rev with
  | earlier => Earlier.try_block env net
  | later => Later.try_block env net
  end.

Definition handler_of (rev : revision) env net : request num -> invocation num :=
  match rev with
  | earlier => Earlier.handler env net
  | later => Later.handler env net
  end.

(** Both secrets are set and not empty. *)
Definition configured env : bool :=
  env_truthy (SUPABASE_URL env) && env_truthy (SUPABASE_ANON_KEY env).

(** A revision that looks at the configuration finds it complete. *)
Definition passes_guard (rev : revision) env : bool :=
  match rev with
  | earlier => true
  | later => configured env
  end.

(** A [POST] whose text parses to [j]. *)
Definition post (j : json num) : request num :=
  {| req_method := "POST"; req_body := BodyJson j |}.

(** The status each revision gives to a caught error. *)
Definition error_status (rev : revision) (message : string) : Z :=
  match rev with
  | earlier => 500%Z
  | later => Later.statusCode message
  end.

(** The message of the check on [userId] and [action]. *)
Definition missing_parameters : string :=
  "Missing required parameters: userId or action.".

(** The message of the guard of the later [callSupabase]. *)
Definition not_configured : string :=
  "Supabase credentials are not configured.".

(** The address of the audit table. *)
Definition audit_url env : string :=
  env_to_string (SUPABASE_URL env) ++ "/rest/v1/actions_log".

(** The request of the audit write. *)
Definition audit_request (rev : revision) env (userId action : value num)
    (payload : json num) : fetch_request num :=
  fetchOptions_of rev env "actions_log" "POST"
    (audit_entry userId action payload) "".

(** The world after the awaited control flow went through [added]. *)
Definition extend w (added : list (event num)) : world num :=
  {| trace := app (trace w) added;
     background := background w;
     issued := issued w + length (fetches added) |}.

(** The world once the body was read. *)
Definition body_read : world num :=
  {| trace := [EvReadBody]; background := []; issued := 0 |}.

(** The text either revision throws for a status that is no success. *)
Definition api_error (rev : revision) (status : Z) (errorText : string) : string :=
  match rev with
  | earlier => "Supabase Error: " ++ Z_to_string status ++ " - " ++ errorText
  | later => "Supabase API Error " ++ Z_to_string status ++ ": " ++ errorText
  end.

(** The outcome of the [try] block of [callSupabase], read off the way
    [fetch] settled. *)
Definition attempt (rev : revision) (o : settled (fetch_response num))
  : settled (json num) :=
  match o with
  | Rejected m => Rejected m
  | Resolved r =>
      if resp_ok r then
        if (resp_status r =? 204)%Z then Resolved no_content
        else
          match resp_json r with
          | Resolved j => Resolved (unwrap_single j)
          | Rejected m => Rejected m
          end
      else
        match resp_text r with
        | Resolved t => Rejected (api_error rev (resp_status r) t)
        | Rejected m => Rejected m
        end
  end.

(** What the [catch] block of [callSupabase] makes of that outcome. *)
Definition rethrown (inner : settled (json num)) : settled (json num) :=
  match inner with
  | Resolved j => Resolved j
  | Rejected m => Rejected ("Database operation failed: " ++ m)
  end.

(** What the [catch] block of [callSupabase] prints. *)
Definition printed_by (inner : settled (json num)) : list (event num) :=
  match inner with
  | Resolved _ => []
  | Rejected m => [EvConsoleError ["Supabase Call Failed:"; m]]
  end.

(** The first argument of the [console.error] in the [.catch] callback
    of [logAction], when the template literal does not throw. *)
Definition log_label (rev : revision) (userId action : value num)
  : settled string :=
  match to_string action with
  | Rejected m => Rejected m
  | Resolved a =>
      match rev with
      | later => Resolved ("Failed to log action " ++ a ++ ":")
      | earlier =>
          match to_string userId with
          | Rejected m => Rejected m
          | Resolved u =>
              Resolved ("Failed to log action " ++ a ++ " for user " ++ u ++ ":")
          end
      end
  end.

(** What the [.catch] callback of [logAction] leaves behind: its line,
    or the rejection nobody handles when building the line throws. *)
Definition logged_by (rev : revision) (userId action : value num)
    (outcome : settled (json num)) : list (event num) :=
  match outcome with
  | Resolved _ => []
  | Rejected m =>
      match log_label rev userId action with
      | Resolved label => [EvConsoleError [label; m]]
      | Rejected m' => [EvUnhandledRejection m']
      end
  end.


(** The action names the [switch] knows. *)
Definition known_actions : list string :=
  ["getBalanceAndTaskStatus"; "addPoints"; "claimTaskReward"; "watchAd";
   "executeSwap"; "spin"; "ref"].

(** [action] is one of the names of the [switch]. *)
Definition recognised (action : value num) : bool :=
  existsb (is_string action) known_actions.

(** The validation of the specification's action table: [refused rev
    action data message] says that [action] is not a name of the
    [switch], or that [data] lacks what the action requires, and gives
    the message of the error; an action that is not a name of the
    [switch] is named in the message by its string form, and when it
    has none the error is the one of the failed conversion.  [addPoints]
    needs a number [points] that is not negative; [claimTaskReward]
    needs [task] equal to
    [joinChannel] and a number [reward]; [watchAd] needs a number
    [reward]; [executeSwap] needs a number [newPoints] and a truthy
    [newUsdt], and in the earlier revision a number [points]. *)
Inductive refused (rev : revision)
  : value num -> list (string * json num) -> string -> Prop :=
| refused_unknown action data name :
    recognised action = false ->
    to_string action = Resolved name ->
    refused rev action data ("Unknown action: " ++ name)
| refused_unprintable action data message :
    recognised action = false ->
    to_string action = Rejected message ->
    refused rev action data message
| refused_addPoints data :
    is_number (get_prop data "points") = false
    \/ lt_zero (get_prop data "points") = true ->
    refused rev (Some (JStr "addPoints")) data "Invalid points value."
| refused_claimTaskReward data :
    is_string (get_prop data "task") "joinChannel" = false
    \/ is_number (get_prop data "reward") = false ->
    refused rev (Some (JStr "claimTaskReward")) data
      match rev with
      | earlier => "Invalid task or reward data."
      | later => "Invalid task data."
      end
| refused_watchAd data :
    is_number (get_prop data "reward") = false ->
    refused rev (Some (JStr "watchAd")) data
      match rev with
      | earlier => "Invalid ad reward value."
      | later => "Invalid ad reward."
      end
| refused_executeSwap data :
    (rev = earlier /\ is_number (get_prop data "points") = false)
    \/ is_number (get_prop data "newPoints") = false
    \/ truthy (get_prop data "newUsdt") = false ->
    refused rev (Some (JStr "executeSwap")) data "Invalid swap data.".

(** The [select] of the balance query. *)
Definition balance_filter (id : string) : string :=
  "id=eq." ++ id ++ "&select=points,usdt,ticket,join_status,ads_left".

End Vocabulary.

(** ** Sample data: integers as numbers *)

Definition sample_env : config :=
  {| SUPABASE_URL := Some "https://project.supabase.co";
     SUPABASE_ANON_KEY := Some "anon-key" |}.

(** The key is not set. *)
Definition env_without_key : config :=
  {| SUPABASE_URL := Some "https://project.supabase.co";
     SUPABASE_ANON_KEY := None |}.

(** A response with status 200 whose body is the empty row-set [[]]. *)
Definition empty_rowset : fetch_response Z :=
  {| resp_status := 200; resp_json := Resolved (JArr []); resp_text := Resolved "[]" |}.

(** The service finds no row: every request is answered with the empty
    row-set. *)
Definition net_no_rows : network Z := fun _ _ => Resolved empty_rowset.

(** The network is down. *)
Definition net_down : network Z := fun _ _ => Rejected "fetch failed".

(** The network is down for the first request only. *)
Definition net_first_fails : network Z :=
  fun n _ =>
    match n with
    | O => Rejected "fetch failed"
    | S _ => Resolved empty_rowset
    end.

(** [{ userId: 1, action: 'getBalanceAndTaskStatus' }] *)
Definition balance_body : list (string * json Z) :=
  [("userId", JNum 1%Z); ("action", JStr "getBalanceAndTaskStatus")].

(** [{ userId: 1, action: 'watchAd', reward: 5 }] *)
Definition watchAd_body : list (string * json Z) :=
  [("userId", JNum 1%Z); ("action", JStr "watchAd"); ("reward", JNum 5%Z)].

(** [{ userId: 1, action: 'unknownThing' }] *)
Definition unknown_body : list (string * json Z) :=
  [("userId", JNum 1%Z); ("action", JStr "unknownThing")].

(** [{ userId: 0, action: 'spin' }] *)
Definition zero_user_body : list (string * json Z) :=
  [("userId", JNum 0%Z); ("action", JStr "spin")].

(** [{ action: 'spin' }] *)
Definition anonymous_body : list (string * json Z) :=
  [("action", JStr "spin")].


(** ** Further vocabulary *)

Section MoreVocabulary.
Context {num : Type} `{JsNumber num}.
Implicit Types (env : config) (net : network num) (w : world num).
Implicit Types (userId action : value num).

(** The answer to [OPTIONS]: [res.writeHead(204); res.end()]. *)
Definition preflight : http_response num :=
  {| res_status := 204; res_headers := cors_headers; res_body := None |}.

(** The answer to a method that is neither [OPTIONS] nor [POST]. *)
Definition method_not_allowed : http_response num :=
  json_response 405 (error_body "Method Not Allowed. Only POST is supported.").

(** The message of both body readers for text that does not parse. *)
Definition invalid_json : string := "Invalid JSON format in request body.".

(** The four headers every call of [callSupabase] starts from. *)
Definition base_headers env : list (string * string) :=
  [("apikey", env_to_string (SUPABASE_ANON_KEY env));
   ("Authorization", "Bearer " ++ env_to_string (SUPABASE_ANON_KEY env));
   ("Content-Type", "application/json");
   ("Accept", "application/json")].


(** [sub] occurs in [s]. *)
Definition occurs_in (sub s : string) : Prop :=
  exists before after, s = before ++ sub ++ after.

(** The outbound requests of an invocation. *)
Definition requests_of (run : invocation num) : list (fetch_request num) :=
  fetches (trace (final run)).

(** The world once the body was read and the audit write was fired. *)
Definition after_audit (rev : revision) env net userId action
    (payload : json num) : world num :=
  if passes_guard rev env then
    let rq := audit_request rev env userId action payload in
    let inner := attempt rev (net 0 rq) in
    {| trace := [EvReadBody; EvFetch rq];
       background :=
         app (printed_by inner) (logged_by rev userId action (rethrown inner));
       issued := 1 |}
  else
    {| trace := [EvReadBody];
       background := logged_by rev userId action (Rejected not_configured);
       issued := 0 |}.

End MoreVocabulary.


(** ** More sample data *)

(** A response with status 404 and a plain text. *)
Definition not_found : fetch_response Z :=
  {| resp_status := 404;
     resp_json := Rejected "Unexpected token N in JSON at position 0";
     resp_text := Resolved "Not Found" |}.

(** Every request is answered with status 404. *)
Definition net_not_found : network Z := fun _ _ => Resolved not_found.

(** The row of an account that has no ads left. *)
Definition account_row : list (string * json Z) :=
  [("points", JNum 10%Z); ("usdt", JNum 0%Z); ("ticket", JNum 2%Z);
   ("join_status", JStr "join"); ("ads_left", JNum 0%Z)].

(** A response with status 200 whose body is the row-set of that one
    row. *)
Definition one_row : fetch_response Z :=
  {| resp_status := 200;
     resp_json := Resolved (JArr [JObj account_row]);
     resp_text := Rejected "body used already" |}.

(** Every request is answered with that row-set. *)
Definition net_one_row : network Z := fun _ _ => Resolved one_row.

(** A response with status 200 whose body is the JSON text [null]. *)
Definition null_answer : fetch_response Z :=
  {| resp_status := 200; resp_json := Resolved JNull; resp_text := Resolved "null" |}.

(** Every request is answered with [null]. *)
Definition net_null : network Z := fun _ _ => Resolved null_answer.

(** [{ userId: 1, action: 'addPoints', points: 5 }] *)
Definition addPoints_body : list (string * json Z) :=
  [("userId", JNum 1%Z); ("action", JStr "addPoints"); ("points", JNum 5%Z)].

(** [{ userId: 1, action: 'claimTaskReward', task: 'joinChannel',
    reward: 5 }] *)
Definition claim_body : list (string * json Z) :=
  [("userId", JNum 1%Z); ("action", JStr "claimTaskReward");
   ("task", JStr "joinChannel"); ("reward", JNum 5%Z)].

(* ================================================================== *)
(** * The gateway *)
(* ================================================================== *)

Section GatewayProperties.
Context {num : Type} `{JsNumber num}.
Implicit Types (env : config) (net : network num) (w : world num).
Implicit Types (table method filter : string) (body : json num).

Lemma later_guard_passes env :
  configured env = true ->
  negb (env_truthy (SUPABASE_URL env))
    || negb (env_truthy (SUPABASE_ANON_KEY env)) = false.
Proof.
  unfold configured. intros Hc.
  apply andb_true_iff in Hc as [-> ->]. reflexivity.
Qed.

Lemma later_guard_stops env :
  configured env = false ->
  negb (env_truthy (SUPABASE_URL env))
    || negb (env_truthy (SUPABASE_ANON_KEY env)) = true.
Proof.
  unfold configured. intros Hc.
  apply andb_false_iff in Hc as [-> | ->]; [reflexivity | apply orb_true_r].
Qed.

Lemma extend_nil w : extend w [] = w.
Proof.
  destruct w as [t b i]. unfold extend. cbn.
  now rewrite app_nil_r, Nat.add_0_r.
Qed.

Lemma extend_fetch w (rq : fetch_request num) :
  {| trace := app (trace w) [EvFetch rq];
     background := background w;
     issued := S (issued w) |} = extend w [EvFetch rq].
Proof. unfold extend. cbn. f_equal. lia. Qed.

Lemma extend_fetch_print w (rq : fetch_request num) args :
  {| trace := app (app (trace w) [EvFetch rq]) [EvConsoleError args];
     background := background w;
     issued := S (issued w) |} = extend w [EvFetch rq; EvConsoleError args].
Proof. unfold extend. cbn. rewrite <- app_assoc. f_equal. lia. Qed.

(** A gateway call, step by step: past the guard, the request is
    issued, the network settles it, the [try] block makes its outcome of
    that and the [catch] block prints and rethrows. *)
Lemma callSupabase_run rev env net table method body filter w :
  callSupabase_of rev env net table method body filter w =
    if passes_guard rev env then
      let rq := fetchOptions_of rev env table method body filter in
      let inner := attempt rev (net (issued w) rq) in
      (rethrown inner, extend w (EvFetch rq :: printed_by inner))
    else (Rejected not_configured, w).
Proof.
  destruct rev; cbn [callSupabase_of fetchOptions_of passes_guard].
  - unfold Earlier.callSupabase, try_catch, bind, fetch, await, emit, throw, ret.
    cbn zeta. destruct (net (issued w) _) as [r | m]; cbn.
    + destruct (resp_ok r); [destruct (resp_status r =? 204)%Z |];
        [| destruct (resp_json r) | destruct (resp_text r)]; cbn;
        now rewrite <- ?extend_fetch, <- ?extend_fetch_print.
    + now rewrite <- extend_fetch_print.
  - unfold Later.callSupabase.
    destruct (configured env) eqn:Hc.
    + rewrite (later_guard_passes _ Hc).
      unfold try_catch, bind, fetch, await, emit, throw, ret.
      cbn zeta. destruct (net (issued w) _) as [r | m]; cbn.
      * destruct (resp_ok r); [destruct (resp_status r =? 204)%Z |];
          [| destruct (resp_json r) | destruct (resp_text r)]; cbn;
          now rewrite <- ?extend_fetch, <- ?extend_fetch_print.
      * now rewrite <- extend_fetch_print.
    + rewrite (later_guard_stops _ Hc). reflexivity.
Qed.

Lemma unwrap_single_other (j : json num) :
  (forall x, j <> JArr [x]) -> unwrap_single j = j.
Proof.
  intros Hne. destruct j as [| | | | items |]; try reflexivity.
  destruct items as [| x [| y rest]]; try reflexivity.
  now destruct (Hne x).
Qed.

(** C4.  When the response has a success status, [callSupabase] returns:
    for status 204, the marker [{ success: true, data: null }]; for a
    JSON body that is an array of exactly one element, that element; for
    any other JSON body (an empty array, an array of two or more
    elements, a value that is not an array), the body as it is.  Both
    revisions. *)
Theorem callSupabase_normalises_success
    rev env net table method body filter w r :
  passes_guard rev env = true ->
  net (issued w) (fetchOptions_of rev env table method body filter) = Resolved r ->
  resp_ok r = true ->
  let result := fst (callSupabase_of rev env net table method body filter w) in
  (resp_status r = 204%Z ->
   result = Resolved (JObj [("success", JBool true); ("data", JNull)]))
  /\ (forall x, resp_status r <> 204%Z -> resp_json r = Resolved (JArr [x]) ->
      result = Resolved x)
  /\ (forall j, resp_status r <> 204%Z -> resp_json r = Resolved j ->
      (forall x, j <> JArr [x]) -> result = Resolved j).
Proof.
  intros Hg Hnet Hok result. subst result.
  rewrite callSupabase_run, Hg. cbn zeta. rewrite Hnet. cbn [fst].
  unfold attempt. rewrite Hok. repeat split.
  - intros ->. reflexivity.
  - intros x Hs Hj. destruct (Z.eqb_spec (resp_status r) 204); [contradiction |].
    rewrite Hj. reflexivity.
  - intros j Hs Hj Hne. destruct (Z.eqb_spec (resp_status r) 204); [contradiction |].
    rewrite Hj. cbn. now rewrite (unwrap_single_other _ Hne).
Qed.

(** The later revision sets [Prefer] the way the specification says. *)
Lemma later_prefer_header env table method body filter :
  let prefer_sent :=
    get_header "Prefer"
      (rq_headers (Later.fetchOptions env table method body filter)) in
  (prefer_sent = Some "return=minimal" <->
     method = "POST" /\ table = "actions_log")
  /\ (method = "POST" \/ method = "PATCH" ->
      ~ (method = "POST" /\ table = "actions_log") ->
      prefer_sent = Some "return=representation")
  /\ (method = "GET" -> prefer_sent = None).
Proof.
  cbn. unfold Later.prefer.
  destruct (String.eqb_spec method "POST") as [Hpost | Hpost];
    destruct (String.eqb_spec table "actions_log") as [Hlog | Hlog];
    destruct (String.eqb_spec method "PATCH") as [Hpatch | Hpatch];
    cbn; repeat split; intros; subst;
    try congruence; try tauto; try discriminate;
    try (exfalso; tauto);
    try (match goal with H : _ /\ _ |- _ => destruct H end; congruence).
Qed.

(** C6.  In the earlier revision the second [if] of the [Prefer] logic
    is not an [else if]: it overwrites the header of the audit insert.
    The [POST] to [actions_log] carries [return=representation], and no
    call at all carries [return=minimal]. *)
Theorem earlier_prefer_header_of_audit env table method body filter :
  get_header "Prefer"
    (rq_headers (Earlier.fetchOptions env "actions_log" "POST" body filter))
    = Some "return=representation"
  /\ get_header "Prefer"
       (rq_headers (Earlier.fetchOptions env table method body filter))
     <> Some "return=minimal".
Proof.
  split; [reflexivity |].
  cbn. unfold Earlier.prefer.
  destruct (method =? "POST"), (table =? "actions_log"),
    (method =? "PATCH"); cbn; discriminate.
Qed.

(** C7, as amended.  In the later revision a gateway call made while a
    secret is missing or empty throws the configuration error and
    leaves the world as it was: no request is issued, nothing is
    printed. *)
Theorem later_callSupabase_unconfigured env net table method body filter w :
  configured env = false ->
  Later.callSupabase env net table method body filter w =
    (Rejected "Supabase credentials are not configured.", w).
Proof.
  intros Hc. unfold Later.callSupabase.
  rewrite (later_guard_stops _ Hc). reflexivity.
Qed.

End GatewayProperties.

(* ================================================================== *)
(** * How the pieces of the handler run *)
(* ================================================================== *)

Section Runs.
Context {num : Type} `{JsNumber num}.
Implicit Types (env : config) (net : network num) (w : world num).
Implicit Types (userId action : value num) (data : list (string * json num)).

(** A [POST] runs the [try] block and answers from its outcome. *)
Lemma handler_post rev env net req :
  req_method req = "POST" ->
  handler_of rev env net req =
    match try_block_of rev env net req start with
    | (Resolved body, w) =>
        {| response := json_response 200 body; final := w |}
    | (Rejected message, w) =>
        {| response := json_response (error_status rev message) (error_body message);
           final := log_error message w |}
    end.
Proof.
  intros Hm. destruct rev; cbn [handler_of try_block_of error_status];
    [unfold Earlier.handler | unfold Later.handler]; rewrite Hm; reflexivity.
Qed.

(** Any other method is answered at the gate. *)
Lemma handler_gate rev env net req :
  req_method req <> "POST" ->
  handler_of rev env net req =
    {| response :=
         if req_method req =? "OPTIONS" then preflight else method_not_allowed;
       final := start |}.
Proof.
  intros Hm. destruct rev; cbn [handler_of];
    [unfold Earlier.handler | unfold Later.handler];
    destruct (String.eqb_spec (req_method req) "OPTIONS");
    destruct (String.eqb_spec (req_method req) "POST");
    try contradiction; reflexivity.
Qed.

(** The audit write: the request joins the trace at once, whatever is
    printed about its outcome happens in the background, and the caller
    goes on. *)
Lemma logAction_run rev env net userId action payload w :
  logAction_of rev env net userId action payload w =
    (Resolved tt,
     if passes_guard rev env then
       let rq := audit_request rev env userId action payload in
       let inner := attempt rev (net (issued w) rq) in
       {| trace := app (trace w) [EvFetch rq];
          background :=
            app (background w)
                (app (printed_by inner)
                     (logged_by rev userId action (rethrown inner)));
          issued := S (issued w) |}
     else
       {| trace := trace w;
          background :=
            app (background w)
                (logged_by rev userId action (Rejected not_configured));
          issued := issued w |}).
Proof.
  destruct rev; cbn [logAction_of];
    [unfold Earlier.logAction; change (Earlier.callSupabase env net)
       with (callSupabase_of earlier env net)
    | unfold Later.logAction; change (Later.callSupabase env net)
       with (callSupabase_of later env net)];
    unfold detach; rewrite callSupabase_run; unfold audit_request;
    destruct (passes_guard _ env); cbn zeta; cbn [issued];
    try destruct (attempt _ _) as [j | m];
    unfold logged_by, log_label, print, await, bind, emit;
    destruct (to_string action); try destruct (to_string userId); cbn;
    rewrite ?app_nil_r, ?Nat.add_1_r, ?Nat.add_0_r; reflexivity.
Qed.

(** A body that is not [null] and whose [userId] or [action] is falsy
    stops at the check: the body was read, nothing else happened. *)
Lemma try_block_missing rev env net (j : json num) :
  j <> JNull ->
  truthy (dot j "userId") = false \/ truthy (dot j "action") = false ->
  try_block_of rev env net (post j) start = (Rejected missing_parameters, body_read).
Proof.
  intros Hnull Hfalsy.
  assert (Hcheck : negb (truthy (dot j "userId")) || negb (truthy (dot j "action")) = true).
  { destruct Hfalsy as [-> | ->]; [reflexivity | apply orb_true_r]. }
  destruct rev; cbn [try_block_of];
    [unfold Earlier.try_block, Earlier.getBody
    | unfold Later.try_block, Later.getBody];
    unfold bind, emit, ret, throw, post, destructure; cbn;
    destruct j; try contradiction; cbn in *; try reflexivity;
    rewrite Hcheck; reflexivity.
Qed.

(** A body that is an object with truthy [userId] and [action] goes
    through the audit write and the [switch]. *)
Lemma try_block_checked rev env net props :
  let userId := get_prop props "userId" in
  let action := get_prop props "action" in
  truthy userId = true -> truthy action = true ->
  try_block_of rev env net (post (JObj props)) start =
    match dispatch_of rev env net userId action
            (rest_props ["userId"; "action"] props)
            (snd (logAction_of rev env net userId action (JObj props) body_read))
    with
    | (Resolved responseData, w) => (Resolved (success_body action responseData), w)
    | (Rejected m, w) => (Rejected m, w)
    end.
Proof.
  intros userId action Hu Ha.
  destruct rev; cbn [try_block_of dispatch_of logAction_of];
    [unfold Earlier.try_block, Earlier.getBody
    | unfold Later.try_block, Later.getBody];
    unfold bind, emit, ret, throw, post, destructure; cbn;
    fold userId action; rewrite Hu, Ha; cbn;
    [change (Earlier.logAction env net) with (logAction_of earlier env net)
    | change (Later.logAction env net) with (logAction_of later env net)];
    rewrite !logAction_run; unfold body_read;
    cbn [snd trace background issued app];
    destruct (passes_guard _ env); cbn zeta;
    match goal with
    | |- context [Earlier.dispatch ?a ?b ?c ?d ?e ?f] =>
        destruct (Earlier.dispatch a b c d e f) as [[rd | m] w2]
    | |- context [Later.dispatch ?a ?b ?c ?d ?e ?f] =>
        destruct (Later.dispatch a b c d e f) as [[rd | m] w2]
    end; reflexivity.
Qed.

End Runs.

(* ================================================================== *)
(** * The dispatcher *)
(* ================================================================== *)

Section DispatcherProperties.
Context {num : Type} `{JsNumber num}.
Implicit Types (env : config) (net : network num) (w : world num).
Implicit Types (userId action : value num) (data props : list (string * json num)).

(** C9.  A request whose method is not [POST] is answered at the gate:
    [OPTIONS] with status 204, no body and the three CORS headers, any
    other method with status 405, the CORS headers, the JSON content
    type and the method-not-allowed error; in both cases the world is
    untouched: the body is not read, no request goes out, nothing is
    left to the background.  Both revisions. *)
Theorem method_gate rev env net req :
  req_method req <> "POST" ->
  let run := handler_of rev env net req in
  final run = {| trace := []; background := []; issued := 0 |}
  /\ (req_method req = "OPTIONS" ->
      response run =
        {| res_status := 204;
           res_headers :=
             [("Access-Control-Allow-Origin", "*");
              ("Access-Control-Allow-Methods", "POST, OPTIONS");
              ("Access-Control-Allow-Headers", "Content-Type, Authorization")];
           res_body := None |})
  /\ (req_method req <> "OPTIONS" ->
      response run =
        {| res_status := 405;
           res_headers :=
             [("Access-Control-Allow-Origin", "*");
              ("Access-Control-Allow-Methods", "POST, OPTIONS");
              ("Access-Control-Allow-Headers", "Content-Type, Authorization");
              ("Content-Type", "application/json")];
           res_body :=
             Some (JObj [("ok", JBool false);
                         ("error",
                          JStr "Method Not Allowed. Only POST is supported.")]) |}).
Proof.
  intros Hpost run. subst run.
  destruct rev; cbn [handler_of];
    [unfold Earlier.handler | unfold Later.handler];
    destruct (String.eqb_spec (req_method req) "OPTIONS") as [Ho | Ho];
    destruct (String.eqb_spec (req_method req) "POST") as [Hp | Hp];
    try contradiction; cbn; repeat split; intros; try reflexivity;
    contradiction.
Qed.

Lemma handler_missing rev env net (j : json num) :
  j <> JNull ->
  truthy (dot j "userId") = false \/ truthy (dot j "action") = false ->
  handler_of rev env net (post j) =
    {| response :=
         json_response (error_status rev missing_parameters)
           (error_body missing_parameters);
       final := log_error missing_parameters body_read |}.
Proof.
  intros Hnull Hfalsy.
  rewrite handler_post by reflexivity.
  rewrite (try_block_missing _ _ _ _ Hnull Hfalsy). reflexivity.
Qed.

Lemma get_prop_rest_props_same props k :
  get_prop (rest_props [k] props) k = None.
Proof.
  induction props as [| [k' j] rest IH]; [reflexivity |].
  unfold rest_props in *. cbn [filter fst existsb].
  rewrite orb_false_r.
  destruct (String.eqb_spec k' k) as [E | E]; cbn [negb]; [exact IH |].
  cbn [get_prop]. destruct (String.eqb_spec k' k); [contradiction | exact IH].
Qed.

Lemma get_prop_rest_props_other excluded props k :
  existsb (String.eqb k) excluded = false ->
  get_prop (rest_props excluded props) k = get_prop props k.
Proof.
  intros Hk.
  induction props as [| [k' j] rest IH]; [reflexivity |].
  unfold rest_props in *. cbn [filter fst get_prop].
  destruct (String.eqb_spec k' k) as [E | E].
  - subst k'. rewrite Hk. cbn [negb get_prop]. now rewrite String.eqb_refl.
  - destruct (negb _); [| exact IH].
    cbn [get_prop]. destruct (String.eqb_spec k' k); [contradiction | exact IH].
Qed.

(** C10.  A body in which [userId] or [action] is present with a falsy
    value ([0], the empty string, [false], [null]) is refused with the
    missing-parameters error, and the whole invocation is the one of the
    same body without that property.  Status 400 in the later revision,
    500 in the earlier one. *)
Theorem falsy_parameter_is_missing rev env net props k (j : json num) :
  k = "userId" \/ k = "action" ->
  get_prop props k = Some j ->
  truthy_json j = false ->
  let run := handler_of rev env net (post (JObj props)) in
  response run =
    json_response (match rev with later => 400 | earlier => 500 end)
      (error_body "Missing required parameters: userId or action.")
  /\ final run = log_error missing_parameters body_read
  /\ run = handler_of rev env net (post (JObj (rest_props [k] props))).
Proof.
  intros Hk Hget Hfalsy run. subst run.
  assert (Hhere : truthy (dot (JObj props) "userId") = false
                  \/ truthy (dot (JObj props) "action") = false).
  { cbn [dot]. destruct Hk as [-> | ->]; rewrite Hget; cbn; auto. }
  assert (Hthere : truthy (dot (JObj (rest_props [k] props)) "userId") = false
                   \/ truthy (dot (JObj (rest_props [k] props)) "action") = false).
  { cbn [dot]. destruct Hk as [-> | ->];
      rewrite get_prop_rest_props_same; cbn; auto. }
  rewrite !handler_missing by (assumption || discriminate).
  destruct rev; repeat split; reflexivity.
Qed.

(** The answer to a [POST] is either the success envelope with status
    200 or the error envelope with the status of the revision. *)
Lemma post_answer rev env net req :
  req_method req = "POST" ->
  (exists action responseData,
      response (handler_of rev env net req)
      = json_response 200 (success_body action responseData))
  \/ (exists message,
         response (handler_of rev env net req)
         = json_response (error_status rev message) (error_body message)).
Proof.
  intros Hm. rewrite (handler_post _ _ _ _ Hm).
  destruct (try_block_of rev env net req start) as [[body | m] w] eqn:E;
    [left | right; exists m; reflexivity].
  destruct rev; cbn [try_block_of] in E;
    [unfold Earlier.try_block in E | unfold Later.try_block in E];
    unfold bind in E;
    repeat match type of E with
      | match ?c with _ => _ end = _ =>
          let r := fresh "r" in
          let w' := fresh "w" in
          destruct c as [[r | ?] w']; try discriminate
      | (let '(_, _) := ?p in _) _ = _ => destruct p as [[? ?] ?]
      | (if ?b then _ else _) _ = _ => destruct b; try discriminate
      end;
    unfold ret, throw in E; try discriminate;
    injection E as <- <-; eexists; eexists; reflexivity.
Qed.

(** C3, as amended.  A [POST] whose body parses to a value other than
    [null] and has no [userId] or no [action] is answered with the
    missing-parameters error: status 400 in the later revision, 500 in
    the earlier one.  In the later revision the status of an error
    answer to a [POST] is 400 exactly when the message contains [JSON]
    or [Missing], and 500 otherwise; in the earlier revision it is 500
    for every error. *)
Theorem missing_parameter_status env net (j : json num) :
  j <> JNull ->
  dot j "userId" = None \/ dot j "action" = None ->
  response (Later.handler env net (post j))
    = json_response 400 (error_body "Missing required parameters: userId or action.")
  /\ response (Earlier.handler env net (post j))
     = json_response 500 (error_body "Missing required parameters: userId or action.")
  /\ (forall req, req_method req = "POST" ->
      (exists action responseData,
          response (Later.handler env net req)
          = json_response 200 (success_body action responseData))
      \/ (exists message,
             response (Later.handler env net req)
             = json_response
                 (if includes message "JSON" || includes message "Missing"
                  then 400 else 500)
                 (error_body message)))
  /\ (forall req, req_method req = "POST" ->
      (exists action responseData,
          response (Earlier.handler env net req)
          = json_response 200 (success_body action responseData))
      \/ (exists message,
             response (Earlier.handler env net req)
             = json_response 500 (error_body message))).
Proof.
  intros Hnull Hlacks.
  assert (Hfalsy : truthy (dot j "userId") = false \/ truthy (dot j "action") = false)
    by (destruct Hlacks as [-> | ->]; auto).
  repeat split.
  - change (Later.handler env net) with (handler_of later env net).
    now rewrite handler_missing.
  - change (Earlier.handler env net) with (handler_of earlier env net).
    now rewrite handler_missing.
  - intros req Hm. exact (post_answer later env net req Hm).
  - intros req Hm. exact (post_answer earlier env net req Hm).
Qed.

End DispatcherProperties.

Section SwitchProperties.
Context {num : Type} `{JsNumber num}.
Implicit Types (env : config) (net : network num) (w : world num).
Implicit Types (userId action : value num) (data props : list (string * json num)).

Lemma recognised_false action :
  recognised action = false ->
  is_string action "getBalanceAndTaskStatus" = false
  /\ is_string action "addPoints" = false
  /\ is_string action "claimTaskReward" = false
  /\ is_string action "watchAd" = false
  /\ is_string action "executeSwap" = false
  /\ is_string action "spin" = false
  /\ is_string action "ref" = false.
Proof.
  unfold recognised, known_actions. cbn [existsb]. intros Hr.
  repeat (apply orb_false_iff in Hr as [? Hr]). auto 10.
Qed.

(** A refused request leaves the [switch] with its error before
    anything happens. *)
Lemma dispatch_refused rev env net userId action data message w :
  refused rev action data message ->
  dispatch_of rev env net userId action data w = (Rejected message, w).
Proof.
  intros Hr.
  destruct Hr as [action data name Hu Hname | action data message Hu Hname
                 | data Hd | data Hd | data Hd | data Hd].
  - apply recognised_false in Hu as (E1 & E2 & E3 & E4 & E5 & E6 & E7).
    destruct rev; cbn [dispatch_of];
      [unfold Earlier.dispatch | unfold Later.dispatch];
      rewrite E1, E2, E3, E4, E5, E6, E7;
      unfold bind, print, await, throw; rewrite Hname; reflexivity.
  - apply recognised_false in Hu as (E1 & E2 & E3 & E4 & E5 & E6 & E7).
    destruct rev; cbn [dispatch_of];
      [unfold Earlier.dispatch | unfold Later.dispatch];
      rewrite E1, E2, E3, E4, E5, E6, E7;
      unfold bind, print, await, throw; rewrite Hname; reflexivity.
  - destruct rev; cbn [dispatch_of];
      [unfold Earlier.dispatch, Earlier.case_addPoints
      | unfold Later.dispatch, Later.case_addPoints]; cbv zeta;
      destruct Hd as [E | E]; rewrite E; rewrite ?orb_true_r; reflexivity.
  - destruct rev; cbn [dispatch_of];
      [unfold Earlier.dispatch, Earlier.case_claimTaskReward
      | unfold Later.dispatch, Later.case_claimTaskReward]; cbv zeta;
      destruct Hd as [E | E]; rewrite E; rewrite ?orb_true_r; reflexivity.
  - destruct rev; cbn [dispatch_of];
      [unfold Earlier.dispatch, Earlier.case_watchAd
      | unfold Later.dispatch, Later.case_watchAd]; cbv zeta;
      rewrite Hd; reflexivity.
  - destruct rev; cbn [dispatch_of];
      [unfold Earlier.dispatch, Earlier.case_executeSwap
      | unfold Later.dispatch, Later.case_executeSwap]; cbv zeta;
      destruct Hd as [[E E'] | [E' | E']]; try discriminate;
      rewrite E'; rewrite ?orb_true_r; reflexivity.
Qed.

(** C5, as amended.  A request that passes the check on [userId] and
    [action] and is then refused, for an action the [switch] does not
    know or for data its action does not accept, is answered with the
    error of that refusal: the validation message, or, for an unknown
    action that has no string form, the TypeError of the conversion.  No
    gateway call is made on behalf of the action; the one request that
    went out before the refusal is the audit write, a [POST] to
    [actions_log] with the whole body as payload, which fires ahead of
    the [switch] for every request (none at all when the later revision
    finds the configuration incomplete).  Both revisions. *)
Theorem refused_request_calls_only_the_audit_log rev env net props message :
  let userId := get_prop props "userId" in
  let action := get_prop props "action" in
  truthy userId = true ->
  truthy action = true ->
  refused rev action (rest_props ["userId"; "action"] props) message ->
  let run := handler_of rev env net (post (JObj props)) in
  response run =
    {| res_status :=
         match rev with
         | earlier => 500
         | later =>
             if includes message "JSON" || includes message "Missing"
             then 400 else 500
         end;
       res_headers :=
         [("Access-Control-Allow-Origin", "*");
          ("Access-Control-Allow-Methods", "POST, OPTIONS");
          ("Access-Control-Allow-Headers", "Content-Type, Authorization");
          ("Content-Type", "application/json")];
       res_body := Some (JObj [("ok", JBool false); ("error", JStr message)]) |}
  /\ trace (final run)
     = EvReadBody
         :: app (if passes_guard rev env
                 then [EvFetch (audit_request rev env userId action (JObj props))]
                 else [])
                [EvConsoleError ["Error processing request: " ++ message]]
  /\ fetches (trace (final run))
     = (if passes_guard rev env
        then [audit_request rev env userId action (JObj props)]
        else [])
  /\ exists u a,
       userId = Some u /\ action = Some a
       /\ forall rq, In rq (fetches (trace (final run))) ->
            rq_method rq = "POST"
            /\ rq_url rq
               = env_to_string (SUPABASE_URL env) ++ "/rest/v1/actions_log"
            /\ rq_body rq
               = Some (JObj [("action", a); ("user_id", u);
                             ("payload", JObj props)]).
Proof.
  intros userId action Hu Ha Hr run. subst run.
  rewrite handler_post by reflexivity.
  rewrite (try_block_checked rev env net props Hu Ha).
  fold userId action.
  rewrite (dispatch_refused _ _ _ _ _ _ _ _ Hr).
  rewrite logAction_run. cbn [response final snd].
  split; [destruct rev; reflexivity |].
  split; [destruct (passes_guard rev env); reflexivity |].
  split; [destruct (passes_guard rev env); reflexivity |].
  destruct userId as [u |]; [| discriminate Hu].
  destruct action as [a |]; [| discriminate Ha].
  exists u, a. split; [reflexivity |]. split; [reflexivity |].
  intros rq Hin.
  destruct (passes_guard rev env); cbn in Hin; [| destruct Hin].
  destruct Hin as [<- | []].
  destruct rev; repeat split; reflexivity.
Qed.

End SwitchProperties.

Section AuditProperties.
Context {num : Type} `{JsNumber num}.
Implicit Types (env : config) (net : network num) (w : world num).
Implicit Types (userId action : value num) (data props : list (string * json num)).






End AuditProperties.

Section EmptyRowSets.
Context {num : Type} `{JsNumber num}.
Implicit Types (env : config) (net : network num) (w : world num).
Implicit Types (userId action : value num) (data props : list (string * json num)).

(** A response with a success status other than 204 whose body is the
    empty row-set comes back from [callSupabase] as the empty array. *)
Lemma attempt_empty_rowset rev (r : fetch_response num) :
  resp_ok r = true -> resp_status r <> 204%Z -> resp_json r = Resolved (JArr []) ->
  attempt rev (Resolved r) = Resolved (JArr []).
Proof.
  intros Hok Hs Hj. unfold attempt. rewrite Hok, Hj.
  destruct (Z.eqb_spec (resp_status r) 204); [contradiction | reflexivity].
Qed.

(** C1.  When the balance query finds no row the service answers with
    the empty row-set; [callSupabase] returns it as it is, and [[]] is
    truthy, so the test [!userData] lets it through: the handler answers
    200 with [ok: true] instead of the account-not-found error.  The
    later revision sends the envelope without any account field, the
    earlier one fills in its defaults.  For every user that has a string
    form [id], the one the filter is built from.  Both revisions. *)
Theorem balance_of_missing_account_is_answered_ok rev env net props id r :
  let userId := get_prop props "userId" in
  truthy userId = true ->
  to_string userId = Resolved id ->
  get_prop props "action" = Some (JStr "getBalanceAndTaskStatus") ->
  passes_guard rev env = true ->
  net 1 (fetchOptions_of rev env "users" "GET" JNull
           ("id=eq." ++ id ++ "&select=points,usdt,ticket,join_status,ads_left"))
    = Resolved r ->
  resp_ok r = true ->
  resp_status r <> 204%Z ->
  resp_json r = Resolved (JArr []) ->
  response (handler_of rev env net (post (JObj props))) =
    {| res_status := 200;
       res_headers :=
         [("Access-Control-Allow-Origin", "*");
          ("Access-Control-Allow-Methods", "POST, OPTIONS");
          ("Access-Control-Allow-Headers", "Content-Type, Authorization");
          ("Content-Type", "application/json")];
       res_body :=
         Some (JObj (("ok", JBool true)
                       :: ("action", JStr "getBalanceAndTaskStatus")
                       :: match rev with
                          | later => []
                          | earlier =>
                              [("joinTaskStatus", JStr "join");
                               ("adsLeft", JNum (num_of_Z 300))]
                          end)) |}.
Proof.
  intros userId Hu Hid Ha Hg Hnet Hok Hs Hj.
  assert (Ha' : truthy (get_prop props "action") = true) by (rewrite Ha; reflexivity).
  rewrite handler_post by reflexivity.
  rewrite (try_block_checked rev env net props Hu Ha').
  rewrite logAction_run, Hg. cbv zeta. cbn [snd]. fold userId. rewrite Ha.
  destruct rev; cbn [dispatch_of];
    [unfold Earlier.dispatch, Earlier.case_getBalanceAndTaskStatus;
     change (Earlier.callSupabase env net) with (callSupabase_of earlier env net)
    | unfold Later.dispatch, Later.case_getBalanceAndTaskStatus;
      change (Later.callSupabase env net) with (callSupabase_of later env net)];
    change (is_string (Some (JStr "getBalanceAndTaskStatus")) "getBalanceAndTaskStatus")
      with true; cbv iota; unfold bind, print, await; rewrite Hid; cbv iota beta;
    rewrite callSupabase_run, Hg; cbv zeta;
    cbn [issued body_read];
    rewrite Hnet, (attempt_empty_rowset _ r Hok Hs Hj); reflexivity.
Qed.

(** The first, cut-off copy of the later revision has the same test. *)
Lemma balance_of_missing_account_games env net userId id w r :
  configured env = true ->
  to_string userId = Resolved id ->
  net (issued w)
    (Later.fetchOptions env "users" "GET" JNull
       ("id=eq." ++ id
          ++ "&select=points,usdt,ticket,join_status,ads_left,games_played"))
    = Resolved r ->
  resp_ok r = true ->
  resp_status r <> 204%Z ->
  resp_json r = Resolved (JArr []) ->
  fst (Later.case_getBalanceAndTaskStatus_games env net userId w) =
    Resolved [("points", None); ("usdt", None); ("ticket", None);
              ("joinTaskStatus", None); ("adsLeft", None);
              ("gamesPlayed", None)].
Proof.
  intros Hc Hid Hnet Hok Hs Hj.
  unfold Later.case_getBalanceAndTaskStatus_games, bind, print, await.
  rewrite Hid. cbv iota beta.
  change (Later.callSupabase env net) with (callSupabase_of later env net).
  rewrite callSupabase_run. cbn [passes_guard]. rewrite Hc. cbv zeta.
  cbn [fetchOptions_of]. rewrite Hnet, (attempt_empty_rowset _ r Hok Hs Hj).
  reflexivity.
Qed.

(** C2.  [watchAd] with a number as [reward], for an account that has
    no ads left.  In the earlier revision the [PATCH] filtered by
    [ads_left=gt.0] matches no row and the service answers with the
    empty row-set; [[]] is truthy, the test [!updatedUserAd] lets it
    through and the handler answers 200 with [ok: true] and the message
    that the ad was watched, for every user that has a string form
    [id], the one the filter is built from.  In the later revision the
    case is a
    placeholder: it answers 200 with [ok: true] whatever the account
    holds, and the only request that goes out is the audit write. *)
Theorem watchAd_without_ads_left_is_answered_ok env net props id n r :
  let userId := get_prop props "userId" in
  truthy userId = true ->
  to_string userId = Resolved id ->
  get_prop props "action" = Some (JStr "watchAd") ->
  get_prop props "reward" = Some (JNum n) ->
  net 1 (Earlier.fetchOptions env "users" "PATCH"
           (JObj [("ticket", JNum n); ("ads_left", JNum (num_of_Z (-1)))])
           ("id=eq." ++ id ++ "&ads_left=gt.0"))
    = Resolved r ->
  resp_ok r = true ->
  resp_status r <> 204%Z ->
  resp_json r = Resolved (JArr []) ->
  response (Earlier.handler env net (post (JObj props))) =
    {| res_status := 200;
       res_headers :=
         [("Access-Control-Allow-Origin", "*");
          ("Access-Control-Allow-Methods", "POST, OPTIONS");
          ("Access-Control-Allow-Headers", "Content-Type, Authorization");
          ("Content-Type", "application/json")];
       res_body :=
         Some (JObj [("ok", JBool true); ("action", JStr "watchAd");
                     ("message",
                      JStr ("Ad watched. " ++ num_to_string n
                              ++ " ticket added."))]) |}
  /\ response (Later.handler env net (post (JObj props))) =
       {| res_status := 200;
       res_headers :=
         [("Access-Control-Allow-Origin", "*");
          ("Access-Control-Allow-Methods", "POST, OPTIONS");
          ("Access-Control-Allow-Headers", "Content-Type, Authorization");
          ("Content-Type", "application/json")];
          res_body :=
            Some (JObj [("ok", JBool true); ("action", JStr "watchAd");
                        ("message",
                         JStr ("Requested ad watch and " ++ num_to_string n
                                 ++ " ticket addition."))]) |}
  /\ fetches (trace (final (Later.handler env net (post (JObj props))))) =
       if configured env
       then [audit_request later env userId (Some (JStr "watchAd")) (JObj props)]
       else [].
Proof.
  intros userId Hu Hid Ha Hreward Hnet Hok Hs Hj.
  assert (Ha' : truthy (get_prop props "action") = true) by (rewrite Ha; reflexivity).
  assert (Hdata : get_prop (rest_props ["userId"; "action"] props) "reward"
                  = Some (JNum n)).
  { rewrite get_prop_rest_props_other by reflexivity. exact Hreward. }
  change (Earlier.handler env net) with (handler_of earlier env net).
  change (Later.handler env net) with (handler_of later env net).
  rewrite !handler_post by reflexivity.
  rewrite !(try_block_checked _ env net props Hu Ha').
  rewrite !logAction_run. cbv zeta. cbn [snd passes_guard]. fold userId.
  rewrite Ha. cbn [dispatch_of].
  unfold Earlier.dispatch, Earlier.case_watchAd, Later.dispatch, Later.case_watchAd.
  change (Earlier.callSupabase env net) with (callSupabase_of earlier env net).
  repeat match goal with
    | |- context [is_string (Some (JStr ?a)) ?b] =>
        let v := eval vm_compute in (@is_string num (Some (JStr a)) b) in
        change (@is_string num (Some (JStr a)) b) with v
    end.
  cbv iota zeta. rewrite Hdata. unfold bind, print, await. rewrite Hid.
  change (is_number (Some (JNum n))) with true. cbv iota beta. cbn [negb].
  cbv iota beta.
  rewrite callSupabase_run. cbn [passes_guard]. cbv zeta.
  cbn [issued body_read stringify_object fetchOptions_of].
  rewrite Hnet, (attempt_empty_rowset _ r Hok Hs Hj).
  split; [reflexivity |].
  destruct (configured env); split; reflexivity.
Qed.

End EmptyRowSets.

(* ================================================================== *)
(** * The properties at sample inputs *)
(* ================================================================== *)

Lemma callSupabase_normalises_success_witness :
  fst (callSupabase_of later sample_env net_no_rows "users" "GET" JNull "id=eq.1" start)
    = Resolved (JArr []).
Proof.
  refine (proj2 (proj2 (callSupabase_normalises_success
            later sample_env net_no_rows "users" "GET" JNull "id=eq.1" start
            empty_rowset _ _ _)) (JArr []) _ _ _).
  - reflexivity.
  - reflexivity.
  - reflexivity.
  - discriminate.
  - reflexivity.
  - intros x. discriminate.
Defined.

(** C7 as stated fails on the earlier revision: with the key not set the
    request is issued all the same, the missing key printed as
    [undefined], and the call returns what the service answers. *)
Lemma earlier_callSupabase_without_key :
  configured env_without_key = false
  /\ Earlier.callSupabase env_without_key net_no_rows "users" "GET" JNull "id=eq.1" start
     = (Resolved (JArr []),
        {| trace :=
             [EvFetch
                {| rq_url := "https://project.supabase.co/rest/v1/users?id=eq.1";
                   rq_method := "GET";
                   rq_headers :=
                     [("apikey", "undefined");
                      ("Authorization", "Bearer undefined");
                      ("Content-Type", "application/json");
                      ("Accept", "application/json")];
                   rq_body := None |}];
           background := [];
           issued := 1 |}).
Proof. split; reflexivity. Qed.

Lemma later_callSupabase_unconfigured_witness :
  configured env_without_key = false
  /\ Later.callSupabase env_without_key net_no_rows "users" "GET" JNull "id=eq.1" start
     = (Rejected "Supabase credentials are not configured.", start).
Proof.
  split; [reflexivity |].
  apply (later_callSupabase_unconfigured env_without_key net_no_rows
           "users" "GET" JNull "id=eq.1" start).
  reflexivity.
Defined.

Lemma method_gate_witness :
  res_status (response (handler_of later sample_env net_no_rows
                          {| req_method := "GET"; req_body := BodyEmpty |}))
  = 405%Z.
Proof.
  rewrite (proj2 (proj2 (method_gate later sample_env net_no_rows
                           {| req_method := "GET"; req_body := BodyEmpty |}
                           ltac:(discriminate)))
             ltac:(discriminate)).
  reflexivity.
Defined.

Lemma falsy_parameter_is_missing_witness :
  response (handler_of later sample_env net_no_rows (post (JObj zero_user_body)))
  = json_response 400 (error_body "Missing required parameters: userId or action.").
Proof.
  refine (proj1 (falsy_parameter_is_missing later sample_env net_no_rows
            zero_user_body "userId" (JNum 0%Z) _ _ _)).
  - left. reflexivity.
  - reflexivity.
  - reflexivity.
Defined.

(** C3 as stated fails on the body [null]: it parses as JSON and has no
    [userId], but destructuring it throws a TypeError, whose message holds
    neither [JSON] nor [Missing]: the later revision answers 500 with that
    message. *)
Lemma null_body_is_answered_500 :
  dot (JNull : json Z) "userId" = None
  /\ response (Later.handler sample_env net_no_rows (post JNull))
     = json_response 500
         (error_body "Cannot destructure property 'userId' of 'body' as it is null.").
Proof. split; reflexivity. Qed.

Lemma missing_parameter_status_witness :
  response (Later.handler sample_env net_no_rows (post (JObj anonymous_body)))
  = json_response 400 (error_body "Missing required parameters: userId or action.").
Proof.
  refine (proj1 (missing_parameter_status sample_env net_no_rows
            (JObj anonymous_body) _ _)).
  - discriminate.
  - left. reflexivity.
Defined.

(** The status of an error depends on the text alone: an unknown action
    whose name holds [JSON] is answered 400. *)
Example unknown_action_named_JSON :
  response (Later.handler sample_env net_no_rows
              (post (JObj [("userId", JNum 1%Z); ("action", JStr "parseJSON")])))
  = json_response 400 (error_body "Unknown action: parseJSON").
Proof. reflexivity. Qed.

(** C5 as stated fails: the audit write is a gateway call, and it goes
    out before the [switch] refuses the action. *)
Lemma unknown_action_follows_the_audit_write :
  let run := Later.handler sample_env net_no_rows (post (JObj unknown_body)) in
  response run = json_response 500 (error_body "Unknown action: unknownThing")
  /\ trace (final run)
     = [EvReadBody;
        EvFetch
          {| rq_url := "https://project.supabase.co/rest/v1/actions_log";
             rq_method := "POST";
             rq_headers :=
               [("apikey", "anon-key");
                ("Authorization", "Bearer anon-key");
                ("Content-Type", "application/json");
                ("Accept", "application/json");
                ("Prefer", "return=minimal")];
             rq_body :=
               Some (JObj [("action", JStr "unknownThing");
                           ("user_id", JNum 1%Z);
                           ("payload", JObj unknown_body)]) |};
        EvConsoleError ["Error processing request: Unknown action: unknownThing"]].
Proof. split; reflexivity. Qed.

Lemma refused_request_calls_only_the_audit_log_witness :
  fetches (trace (final (handler_of earlier sample_env net_no_rows
                           (post (JObj unknown_body)))))
  = [audit_request earlier sample_env (Some (JNum 1%Z))
       (Some (JStr "unknownThing")) (JObj unknown_body)].
Proof.
  refine (proj1 (proj2 (proj2 (refused_request_calls_only_the_audit_log
            earlier sample_env net_no_rows unknown_body
            "Unknown action: unknownThing" _ _ _)))).
  - reflexivity.
  - reflexivity.
  - apply (refused_unknown earlier (Some (JStr "unknownThing")) _ "unknownThing");
      reflexivity.
Defined.



Lemma balance_of_missing_account_is_answered_ok_witness :
  response (handler_of later sample_env net_no_rows (post (JObj balance_body)))
  = json_response 200
      (JObj [("ok", JBool true); ("action", JStr "getBalanceAndTaskStatus")]).
Proof.
  refine (balance_of_missing_account_is_answered_ok later sample_env net_no_rows
            balance_body "1" empty_rowset _ _ _ _ _ _ _ _);
    try reflexivity; discriminate.
Defined.

Lemma watchAd_without_ads_left_is_answered_ok_witness :
  response (Earlier.handler sample_env net_no_rows (post (JObj watchAd_body)))
  = json_response 200
      (JObj [("ok", JBool true); ("action", JStr "watchAd");
             ("message", JStr "Ad watched. 5 ticket added.")]).
Proof.
  refine (proj1 (watchAd_without_ads_left_is_answered_ok sample_env net_no_rows
            watchAd_body "1" 5%Z empty_rowset _ _ _ _ _ _ _ _));
    try reflexivity; discriminate.
Defined.

(** The earlier revision fills in its defaults for the account that does
    not exist. *)
Example balance_of_missing_account_earlier :
  res_body (response (Earlier.handler sample_env net_no_rows (post (JObj balance_body))))
  = Some (JObj [("ok", JBool true); ("action", JStr "getBalanceAndTaskStatus");
                ("joinTaskStatus", JStr "join"); ("adsLeft", JNum 300%Z)]).
Proof. reflexivity. Qed.

(* ================================================================== *)
(** * More on the gateway *)
(* ================================================================== *)

Section GatewayMore.
Context {num : Type} `{JsNumber num}.
Implicit Types (env : config) (net : network num) (w : world num).
Implicit Types (table method filter : string) (body : json num).

Lemma fetches_app (a b : list (event num)) :
  fetches (app a b) = app (fetches a) (fetches b).
Proof.
  induction a as [| e a IH]; [reflexivity |].
  destruct e; cbn; now rewrite IH.
Qed.

Lemma fetches_printed_by (inner : settled (json num)) :
  fetches (printed_by inner) = [].
Proof. destruct inner; reflexivity. Qed.

(** X1.  The [Prefer] logic of either revision leaves the four headers of
    the literal alone and adds at most one [Prefer]: none for a method
    that is neither [POST] nor [PATCH], [return=representation] for a
    [PATCH], one of the two values for a [POST]. *)
Theorem request_headers rev env table method body filter :
  let sent := rq_headers (fetchOptions_of rev env table method body filter) in
  (method <> "POST" -> method <> "PATCH" -> sent = base_headers env)
  /\ (method = "PATCH" ->
      sent = app (base_headers env) [("Prefer", "return=representation")])
  /\ (method = "POST" ->
      exists v, sent = app (base_headers env) [("Prefer", v)]
                /\ (v = "return=minimal" \/ v = "return=representation")).
Proof.
  destruct rev; cbn [fetchOptions_of];
    [unfold Earlier.fetchOptions, Earlier.prefer
    | unfold Later.fetchOptions, Later.prefer];
    cbn [rq_headers]; fold (base_headers env);
    destruct (String.eqb_spec method "POST") as [Hpost | Hpost];
    destruct (String.eqb_spec method "PATCH") as [Hpatch | Hpatch];
    destruct (table =? "actions_log");
    cbn [andb orb];
    (split; [| split]); intros; subst; try contradiction; try discriminate;
    try reflexivity;
    eexists; (split; [reflexivity |]); auto.
Qed.

(** X2.  Past the guard a call issues exactly one request, whatever comes
    back: there is no retry.  It leaves the background alone.  When it
    fails, the message is the cause behind the prefix [Database operation
    failed: ], and the cause was printed once. *)
Theorem callSupabase_one_request rev env net table method body filter w :
  passes_guard rev env = true ->
  let rq := fetchOptions_of rev env table method body filter in
  let result := fst (callSupabase_of rev env net table method body filter w) in
  let w' := snd (callSupabase_of rev env net table method body filter w) in
  fetches (trace w') = app (fetches (trace w)) [rq]
  /\ issued w' = S (issued w)
  /\ background w' = background w
  /\ match result with
     | Resolved _ => trace w' = app (trace w) [EvFetch rq]
     | Rejected m =>
         exists cause,
           m = "Database operation failed: " ++ cause
           /\ trace w' = app (trace w)
                           [EvFetch rq;
                            EvConsoleError ["Supabase Call Failed:"; cause]]
     end.
Proof.
  intros Hg rq result w'. subst result w'.
  rewrite callSupabase_run, Hg. cbv zeta. fold rq. cbn [fst snd].
  unfold extend. cbn [trace background issued fetches].
  rewrite fetches_app. cbn [fetches]. rewrite fetches_printed_by.
  split; [reflexivity |]. split; [cbn; lia |]. split; [reflexivity |].
  destruct (attempt rev (net (issued w) rq)) as [j | m]; cbn [rethrown printed_by].
  - reflexivity.
  - exists m. split; reflexivity.
Qed.

(** X3.  Past the guard a call succeeds exactly when [fetch] resolves to a
    response with a success status that either is 204 or has a body that
    parses as JSON. *)
Theorem callSupabase_succeeds_iff rev env net table method body filter w :
  passes_guard rev env = true ->
  let rq := fetchOptions_of rev env table method body filter in
  (exists j, fst (callSupabase_of rev env net table method body filter w) = Resolved j)
  <-> (exists r, net (issued w) rq = Resolved r
                 /\ resp_ok r = true
                 /\ (resp_status r = 204%Z \/ exists j, resp_json r = Resolved j)).
Proof.
  intros Hg rq. rewrite callSupabase_run, Hg. cbv zeta. fold rq. cbn [fst].
  unfold attempt. split.
  - intros [j Hj]. destruct (net (issued w) rq) as [r | m]; [| discriminate].
    exists r. split; [reflexivity |].
    destruct (resp_ok r); [| destruct (resp_text r); discriminate].
    split; [reflexivity |].
    destruct (Z.eqb_spec (resp_status r) 204); [now left | right].
    destruct (resp_json r) as [j' | m]; [now exists j' | discriminate].
  - intros (r & -> & -> & [Hs | [j Hj]]).
    + rewrite Hs. eexists. reflexivity.
    + rewrite Hj. destruct (resp_status r =? 204)%Z; eexists; reflexivity.
Qed.

(** X4.  A status outside 200..299 is reported with the status and the text
    of the response, in the wording of the revision, behind the gateway's
    prefix; the JSON body is not looked at. *)
Theorem callSupabase_reports_status rev env net table method body filter w r t :
  passes_guard rev env = true ->
  net (issued w) (fetchOptions_of rev env table method body filter) = Resolved r ->
  resp_ok r = false ->
  resp_text r = Resolved t ->
  fst (callSupabase_of rev env net table method body filter w) =
    Rejected
      match rev with
      | earlier =>
          "Database operation failed: Supabase Error: "
            ++ Z_to_string (resp_status r) ++ " - " ++ t
      | later =>
          "Database operation failed: Supabase API Error "
            ++ Z_to_string (resp_status r) ++ ": " ++ t
      end.
Proof.
  intros Hg Hnet Hok Ht.
  rewrite callSupabase_run, Hg. cbv zeta. rewrite Hnet. cbn [fst].
  unfold attempt. rewrite Hok, Ht. destruct rev; reflexivity.
Qed.

End GatewayMore.

(* ================================================================== *)
(** * The status of an error *)
(* ================================================================== *)

Lemma prefix_spec (sub s : string) :
  String.prefix sub s = true <-> exists after, s = sub ++ after.
Proof.
  revert s. induction sub as [| a sub IH]; intros s.
  - split; [intros _; now exists s | intros _; destruct s; reflexivity].
  - destruct s as [| b s]; cbn.
    + split; [discriminate | intros [after E]; discriminate].
    + destruct (ascii_dec a b) as [-> | Hab].
      * rewrite IH. split; intros [after E]; exists after;
          [now rewrite E | now injection E].
      * split; [discriminate | intros [after E]; cbn in E; congruence].
Qed.

Lemma includes_spec (s sub : string) :
  includes s sub = true <-> occurs_in sub s.
Proof.
  unfold occurs_in. split.
  - induction s as [| c s IH]; cbn [includes]; rewrite orb_true_iff.
    + intros [Hp | Hf]; [| discriminate].
      apply prefix_spec in Hp as [after E]. now exists "", after.
    + intros [Hp | Hr].
      * apply prefix_spec in Hp as [after E]. now exists "", after.
      * destruct (IH Hr) as (before & after & E).
        exists (String c before), after. cbn. now rewrite E.
  - intros (before & after & E). revert s E.
    induction before as [| c before IH]; intros s E.
    + cbn in E. destruct s; cbn [includes]; apply orb_true_iff; left;
        apply prefix_spec; now exists after.
    + cbn in E. subst s. cbn [includes]. apply orb_true_iff. right.
      now apply IH.
Qed.

(** X5.  The later revision answers a caught error with 400 exactly when the
    text [JSON] or the text [Missing] occurs somewhere in its message,
    wherever the error came from, and with 500 exactly when neither
    occurs. *)
Theorem statusCode_by_text (message : string) :
  (Later.statusCode message = 400%Z
   <-> occurs_in "JSON" message \/ occurs_in "Missing" message)
  /\ (Later.statusCode message = 500%Z
      <-> ~ (occurs_in "JSON" message \/ occurs_in "Missing" message)).
Proof.
  unfold Later.statusCode. rewrite <- !includes_spec.
  destruct (includes message "JSON"), (includes message "Missing"); cbn;
    (split; split); intros; try discriminate; try tauto; try reflexivity;
    try (exfalso; tauto);
    match goal with
    | H : ~ _ |- _ => exfalso; apply H; auto
    | H : _ \/ _ |- _ => destruct H; discriminate
    | |- ~ _ => intros [? | ?]; discriminate
    end.
Qed.

(* ================================================================== *)
(** * More on the dispatcher *)
(* ================================================================== *)

Section DispatcherMore.
Context {num : Type} `{JsNumber num}.
Implicit Types (env : config) (net : network num) (w : world num).
Implicit Types (userId action : value num) (data props : list (string * json num)).

Ltac no_call :=
  eexists; exists []; rewrite ?extend_nil; split; [reflexivity | left; reflexivity].

Ltac one_call Hatt :=
  do 2 eexists; split; [reflexivity |]; right; split; [reflexivity |];
  do 3 eexists; cbv zeta;
  split;
    [refine (f_equal2 cons _ _); [reflexivity | rewrite Hatt; reflexivity] |];
  first [left; split; [reflexivity |];
         split; [first [reflexivity | assumption] |];
         split; [reflexivity |];
         eexists; split; [first [eassumption | reflexivity] | reflexivity]
        | right; split; reflexivity].

(** The [switch] calls the gateway at most once, for the table [users]:
    with [GET] for the balance query, with [PATCH] in the earlier
    revision only. *)
Lemma dispatch_run rev env net userId action data w :
  exists r added,
    dispatch_of rev env net userId action data w = (r, extend w added)
    /\ (added = []
        \/ (passes_guard rev env = true
            /\ exists method body filter,
                 let rq := fetchOptions_of rev env "users" method body filter in
                 added = EvFetch rq :: printed_by (attempt rev (net (issued w) rq))
                 /\ (method = "GET"
                       /\ is_string action "getBalanceAndTaskStatus" = true
                       /\ body = JNull
                       /\ (exists id, to_string userId = Resolved id
                                      /\ filter = balance_filter id)
                     \/ method = "PATCH" /\ rev = earlier))).
Proof.
  destruct rev; cbn [dispatch_of];
    [unfold Earlier.dispatch, Earlier.case_getBalanceAndTaskStatus,
       Earlier.case_addPoints, Earlier.case_claimTaskReward,
       Earlier.case_watchAd, Earlier.case_executeSwap;
     change (Earlier.callSupabase env net) with (callSupabase_of earlier env net)
    | unfold Later.dispatch, Later.case_getBalanceAndTaskStatus,
        Later.case_addPoints, Later.case_claimTaskReward,
        Later.case_watchAd, Later.case_executeSwap;
      change (Later.callSupabase env net) with (callSupabase_of later env net)];
    cbv zeta; unfold bind, ret, throw, print, await;
    repeat match goal with
      | |- context [(if ?c then _ else _) w] => destruct c eqn:?
      end;
    cbv beta iota;
    repeat match goal with
      | |- context [to_string ?v] => destruct (to_string v) eqn:?
      end;
    cbv beta iota; rewrite ?callSupabase_run; cbn [passes_guard] in *;
    try no_call;
    try (destruct (configured env) eqn:?; [| no_call]);
    cbv zeta;
    match goal with
    | |- context [attempt ?r ?o] => destruct (attempt r o) as [j | m] eqn:Hatt
    end; cbn [rethrown printed_by];
    try one_call Hatt;
    match goal with
    | |- context [negb (truthy_json ?x)] => destruct (negb (truthy_json x))
    end; one_call Hatt.
Qed.

Lemma after_audit_run rev env net userId action (payload : json num) :
  snd (logAction_of rev env net userId action payload body_read)
  = after_audit rev env net userId action payload.
Proof.
  rewrite logAction_run. unfold after_audit.
  destruct (passes_guard rev env); reflexivity.
Qed.

(** The three ways through the handler. *)
Lemma handler_run rev env net req :
  (req_method req <> "POST"
   /\ handler_of rev env net req =
        {| response :=
             if req_method req =? "OPTIONS" then preflight else method_not_allowed;
           final := start |})
  \/ (req_method req = "POST"
      /\ exists m,
           handler_of rev env net req =
             {| response := json_response (error_status rev m) (error_body m);
                final := log_error m body_read |})
  \/ (exists props,
         req = post (JObj props)
         /\ truthy (get_prop props "userId") = true
         /\ truthy (get_prop props "action") = true).
Proof.
  destruct (String.eqb_spec (req_method req) "POST") as [Hm | Hm];
    [| left; split; [assumption | now apply handler_gate]].
  right. destruct req as [m b]. cbn in Hm. subst m.
  destruct b as [| | j | m].
  - left. split; [reflexivity |]. destruct rev; eexists; reflexivity.
  - left. split; [reflexivity |]. destruct rev; eexists; reflexivity.
  - change {| req_method := "POST"; req_body := BodyJson j |} with (post j).
    destruct j as [| b | n | s | items | props];
      try (left; split; [reflexivity |]; destruct rev; eexists; reflexivity).
    destruct (truthy (get_prop props "userId")) eqn:Hu;
      [destruct (truthy (get_prop props "action")) eqn:Ha |].
    + right. exists props. auto.
    + left. split; [reflexivity |]. exists missing_parameters.
      apply handler_missing; [discriminate | now right].
    + left. split; [reflexivity |]. exists missing_parameters.
      apply handler_missing; [discriminate | now left].
  - left. split; [reflexivity |]. destruct rev; eexists; reflexivity.
Qed.

(** A request that passes the check: the audit write, then the
    [switch], then the answer. *)
Lemma checked_run rev env net props :
  let userId := get_prop props "userId" in
  let action := get_prop props "action" in
  truthy userId = true -> truthy action = true ->
  let w1 := after_audit rev env net userId action (JObj props) in
  exists r added,
    dispatch_of rev env net userId action (rest_props ["userId"; "action"] props) w1
    = (r, extend w1 added)
    /\ handler_of rev env net (post (JObj props)) =
         match r with
         | Resolved responseData =>
             {| response := json_response 200 (success_body action responseData);
                final := extend w1 added |}
         | Rejected m =>
             {| response := json_response (error_status rev m) (error_body m);
                final := log_error m (extend w1 added) |}
         end
    /\ (added = []
        \/ (passes_guard rev env = true
            /\ exists method body filter,
                 let rq := fetchOptions_of rev env "users" method body filter in
                 added = EvFetch rq :: printed_by (attempt rev (net (issued w1) rq))
                 /\ (method = "GET"
                       /\ is_string action "getBalanceAndTaskStatus" = true
                       /\ body = JNull
                       /\ (exists id, to_string userId = Resolved id
                                      /\ filter = balance_filter id)
                     \/ method = "PATCH" /\ rev = earlier))).
Proof.
  intros userId action Hu Ha w1.
  destruct (dispatch_run rev env net userId action
              (rest_props ["userId"; "action"] props) w1)
    as (r & added & E & Hshape).
  exists r, added. split; [exact E |]. split; [| exact Hshape].
  rewrite handler_post by reflexivity.
  rewrite (try_block_checked rev env net props Hu Ha).
  fold userId action. rewrite after_audit_run. fold w1. rewrite E.
  destruct r; reflexivity.
Qed.

Lemma fetches_after_audit rev env net userId action (payload : json num) :
  fetches (trace (after_audit rev env net userId action payload))
  = if passes_guard rev env
    then [audit_request rev env userId action payload] else [].
Proof. unfold after_audit. destruct (passes_guard rev env); reflexivity. Qed.

Lemma issued_after_audit rev env net userId action (payload : json num) :
  issued (after_audit rev env net userId action payload)
  = if passes_guard rev env then 1 else 0.
Proof. unfold after_audit. destruct (passes_guard rev env); reflexivity. Qed.

Lemma fetches_log_error m w :
  fetches (trace (log_error m w)) = fetches (trace w).
Proof.
  unfold log_error. cbn [trace]. rewrite fetches_app. cbn. now rewrite app_nil_r.
Qed.

(** X6.  One invocation sends at most two requests, the audit write and at
    most one on behalf of the action, and [issued] counts them. *)
Theorem at_most_two_requests rev env net req :
  length (requests_of (handler_of rev env net req)) <= 2
  /\ issued (final (handler_of rev env net req))
     = length (requests_of (handler_of rev env net req)).
Proof.
  unfold requests_of.
  destruct (handler_run rev env net req)
    as [[_ ->] | [[_ [m ->]] | (props & -> & Hu & Ha)]].
  - cbn. split; [lia | reflexivity].
  - cbn. split; [lia | reflexivity].
  - destruct (checked_run rev env net props Hu Ha) as (r & added & _ & -> & Hshape).
    cbv zeta in Hshape.
    assert (Hend :
              forall w, fetches (trace w)
                        = app (if passes_guard rev env
                               then [audit_request rev env (get_prop props "userId")
                                       (get_prop props "action") (JObj props)]
                               else [])
                              (fetches added)
                        -> issued w
                           = (if passes_guard rev env then 1 else 0)
                             + length (fetches added)
                        -> length (fetches (trace w)) <= 2
                           /\ issued w = length (fetches (trace w))).
    { intros w -> ->. rewrite length_app.
      destruct Hshape as [-> | (Hg & method & body & filter & -> & _)].
      - destruct (passes_guard rev env); cbn; split; lia.
      - rewrite Hg. cbn [fetches]. rewrite fetches_printed_by. cbn. split; lia. }
    destruct r as [responseData | m]; cbn [final]; apply Hend;
      rewrite ?fetches_log_error; unfold extend; cbn [trace issued log_error];
      rewrite ?fetches_app, ?fetches_after_audit, ?issued_after_audit;
      reflexivity.
Qed.


(** X8.  A body that cannot be read as JSON is answered with the
    invalid-JSON error, 400 in the later revision and 500 in the earlier
    one.  An empty body is no JSON for the earlier revision; the later
    one reads it as the empty object and answers that the parameters are
    missing.  In all these cases only the body was read: no request goes
    out, not even the audit write. *)
Theorem unreadable_body rev env net :
  handler_of rev env net {| req_method := "POST"; req_body := BodyMalformed |} =
    {| response :=
         json_response (match rev with later => 400 | earlier => 500 end)
           (error_body "Invalid JSON format in request body.");
       final := log_error "Invalid JSON format in request body." body_read |}
  /\ handler_of rev env net {| req_method := "POST"; req_body := BodyEmpty |} =
       match rev with
       | earlier =>
           {| response :=
                json_response 500 (error_body "Invalid JSON format in request body.");
              final := log_error "Invalid JSON format in request body." body_read |}
       | later =>
           {| response :=
                json_response 400
                  (error_body "Missing required parameters: userId or action.");
              final :=
                log_error "Missing required parameters: userId or action." body_read |}
       end
  /\ requests_of (handler_of rev env net
                    {| req_method := "POST"; req_body := BodyMalformed |}) = []
  /\ requests_of (handler_of rev env net
                    {| req_method := "POST"; req_body := BodyEmpty |}) = [].
Proof. destruct rev; repeat split; reflexivity. Qed.

(** X9.  Every response carries the three CORS headers first, whatever the
    method, the body or the outcome; the answer to [OPTIONS] has no other
    header, every other answer has [Content-Type: application/json]
    after them. *)
Theorem cors_on_every_response rev env net req :
  res_headers (response (handler_of rev env net req)) =
    app [("Access-Control-Allow-Origin", "*");
         ("Access-Control-Allow-Methods", "POST, OPTIONS");
         ("Access-Control-Allow-Headers", "Content-Type, Authorization")]
        (if req_method req =? "OPTIONS" then []
         else [("Content-Type", "application/json")]).
Proof.
  destruct (handler_run rev env net req)
    as [[_ ->] | [[Hm [m ->]] | (props & -> & Hu & Ha)]].
  - destruct (req_method req =? "OPTIONS"); reflexivity.
  - rewrite Hm. reflexivity.
  - destruct (checked_run rev env net props Hu Ha) as (r & added & _ & -> & _).
    destruct r; reflexivity.
Qed.

Lemma dispatch_resolved_recognised rev env net userId action data w responseData w' :
  dispatch_of rev env net userId action data w = (Resolved responseData, w') ->
  exists name, action = Some (JStr name) /\ In name known_actions.
Proof.
  intros E.
  destruct (recognised action) eqn:Hr.
  - unfold recognised in Hr. apply existsb_exists in Hr as (name & Hin & Hs).
    exists name. split; [| exact Hin].
    destruct action as [[| | | s | |] |]; try discriminate Hs.
    cbn in Hs. apply String.eqb_eq in Hs. now subst.
  - destruct (to_string action) as [name | m] eqn:Hname.
    + rewrite (dispatch_refused rev env net userId action data _ w
                 (refused_unknown rev action data name Hr Hname)) in E.
      discriminate E.
    + rewrite (dispatch_refused rev env net userId action data _ w
                 (refused_unprintable rev action data m Hr Hname)) in E.
      discriminate E.
Qed.

Lemma error_status_values rev m :
  error_status rev m = 400%Z \/ error_status rev m = 500%Z.
Proof.
  destruct rev; cbn; [now right |]. unfold Later.statusCode.
  destruct (_ || _); auto.
Qed.

(** X10.  Status and envelope go together.  An answer has status 200 exactly
    when its body starts with [ok: true] and the name of the action, one
    of the seven of the [switch]; the answer to [OPTIONS] is 204 without
    a body; every other answer is [{ ok: false, error }] with status 400,
    405 or 500.  A success is never reported with an error status, nor an
    error with 200. *)
Theorem answer_envelope rev env net req :
  let answer := response (handler_of rev env net req) in
  (res_status answer = 200%Z
   /\ exists name payload,
        In name known_actions
        /\ res_body answer
           = Some (JObj (("ok", JBool true) :: ("action", JStr name) :: payload)))
  \/ (res_status answer = 204%Z /\ res_body answer = None
      /\ req_method req = "OPTIONS")
  \/ ((res_status answer = 400%Z \/ res_status answer = 405%Z
       \/ res_status answer = 500%Z)
      /\ exists message, res_body answer = Some (error_body message)).
Proof.
  intros answer. subst answer.
  destruct (handler_run rev env net req)
    as [[_ ->] | [[Hm [m ->]] | (props & -> & Hu & Ha)]].
  - destruct (String.eqb_spec (req_method req) "OPTIONS").
    + right. left. auto.
    + right. right. split; [cbn; auto | eexists; reflexivity].
  - right. right. cbn [response json_response res_status res_body].
    split; [destruct (error_status_values rev m) as [-> | ->]; auto
           | eexists; reflexivity].
  - destruct (checked_run rev env net props Hu Ha) as (r & added & E & -> & _).
    destruct r as [responseData | m].
    + left. split; [reflexivity |].
      apply dispatch_resolved_recognised in E as (name & Hname & Hin).
      exists name, (stringify_object responseData). split; [exact Hin |].
      cbn [response json_response res_body]. unfold success_body.
      rewrite Hname. reflexivity.
    + right. right. cbn [response json_response res_status res_body].
      split; [destruct (error_status_values rev m) as [-> | ->]; auto
             | eexists; reflexivity].
Qed.

(** X11.  With an incomplete configuration the later revision sends nothing,
    whatever the request, and the whole invocation is the same on every
    network. *)
Theorem later_unconfigured_sends_nothing env net req :
  configured env = false ->
  requests_of (Later.handler env net req) = []
  /\ forall net', Later.handler env net' req = Later.handler env net req.
Proof.
  intros Hc.
  assert (Hd : forall net0 userId action data w,
             exists r, Later.dispatch env net0 userId action data w = (r, w)
                       /\ forall net1 w1,
                           Later.dispatch env net1 userId action data w1 = (r, w1)).
  { intros net0 userId action data w.
    unfold Later.dispatch, Later.case_getBalanceAndTaskStatus,
      Later.case_addPoints, Later.case_claimTaskReward, Later.case_watchAd,
      Later.case_executeSwap, bind, ret, throw, print, await.
    cbv zeta.
    assert (Hcall : forall net1 t m b f w1,
               Later.callSupabase env net1 t m b f w1 = (Rejected not_configured, w1)).
    { intros. change (Later.callSupabase env net1) with (callSupabase_of later env net1).
      rewrite callSupabase_run. cbn [passes_guard]. now rewrite Hc. }
    repeat match goal with
      | |- context [(if ?c then _ else _) w] => destruct c
      end; cbv beta iota;
      repeat match goal with
        | |- context [to_string ?v] => destruct (to_string v)
        end; cbv beta iota; rewrite ?Hcall;
      eexists; (split; [reflexivity |]); intros; cbv beta iota;
      rewrite ?Hcall; reflexivity. }
  assert (Hrun : forall net0,
             Later.handler env net0 req
             = Later.handler env (fun _ _ => Rejected "") req
             /\ requests_of (Later.handler env net0 req) = []).
  { intros net0.
    change (Later.handler env) with (handler_of later env).
    destruct (handler_run later env net0 req)
      as [[Hm E] | [[Hm [m E]] | (props & -> & Hu & Ha)]].
    - rewrite E, (handler_gate later env _ req Hm). split; reflexivity.
    - split; [| rewrite E; reflexivity]. clear E m.
      destruct req as [mt b]. cbn in Hm. subst mt.
      destruct b as [| | j | sm]; try reflexivity.
      destruct j as [| | | | | props]; try reflexivity.
      change {| req_method := "POST"; req_body := BodyJson (JObj props) |}
        with (post (JObj props)) in *.
      destruct (truthy (get_prop props "userId")) eqn:Hu;
        [destruct (truthy (get_prop props "action")) eqn:Ha |].
      + rewrite !handler_post by reflexivity.
        rewrite !(try_block_checked later env _ props Hu Ha).
        rewrite !after_audit_run. unfold after_audit. cbn [passes_guard].
        rewrite Hc. cbn [dispatch_of].
        match goal with
        | |- context [Later.dispatch env net0 ?u ?a ?d ?w] =>
            destruct (Hd net0 u a d w) as (r & E0 & Hall)
        end.
        rewrite E0, Hall. reflexivity.
      + rewrite !handler_missing; auto; discriminate.
      + rewrite !handler_missing; auto; discriminate.
    - rewrite !handler_post by reflexivity.
      rewrite !(try_block_checked later env _ props Hu Ha).
      rewrite !after_audit_run. unfold after_audit. cbn [passes_guard].
      rewrite Hc. cbn [dispatch_of].
      match goal with
      | |- context [Later.dispatch env net0 ?u ?a ?d ?w] =>
          destruct (Hd net0 u a d w) as (r & E0 & Hall)
      end.
      rewrite E0, Hall.
      destruct r; split; reflexivity. }
  split; [apply Hrun |].
  intros net'. destruct (Hrun net') as [-> _]. destruct (Hrun net) as [-> _].
  reflexivity.
Qed.

(** X12.  In the later revision every action but the balance query is
    answered without a look at the configuration or the network: the
    response to such a request is the same on every configuration and
    every network. *)
Theorem later_placeholders_ignore_the_service env1 env2 net1 net2 props :
  truthy (get_prop props "userId") = true ->
  truthy (get_prop props "action") = true ->
  is_string (get_prop props "action") "getBalanceAndTaskStatus" = false ->
  response (Later.handler env1 net1 (post (JObj props)))
  = response (Later.handler env2 net2 (post (JObj props))).
Proof.
  intros Hu Ha Hbal.
  assert (Hd : forall data, exists r, forall env net w,
               Later.dispatch env net (get_prop props "userId")
                 (get_prop props "action") data w = (r, w)).
  { intros data.
    unfold Later.dispatch, Later.case_addPoints, Later.case_claimTaskReward,
      Later.case_watchAd, Later.case_executeSwap, bind, ret, throw, print, await.
    rewrite Hbal. cbv zeta.
    repeat match goal with
      | |- context [if ?c then _ else _] => destruct c
      end;
      repeat match goal with
        | |- context [to_string ?v] => destruct (to_string v)
        end; eexists; intros; reflexivity. }
  change (Later.handler env1 net1) with (handler_of later env1 net1).
  change (Later.handler env2 net2) with (handler_of later env2 net2).
  rewrite !handler_post by reflexivity.
  rewrite !(try_block_checked later _ _ props Hu Ha).
  cbn [dispatch_of].
  destruct (Hd (rest_props ["userId"; "action"] props)) as [r Hr].
  rewrite !Hr. destruct r; reflexivity.
Qed.

End DispatcherMore.

(* ================================================================== *)
(** * More on the actions and the audit write *)
(* ================================================================== *)

Section ActionsMore.
Context {num : Type} `{JsNumber num}.
Implicit Types (env : config) (net : network num) (w : world num).
Implicit Types (userId action : value num) (data props : list (string * json num)).

Lemma attempt_json rev (r : fetch_response num) j :
  resp_ok r = true -> resp_status r <> 204%Z -> resp_json r = Resolved j ->
  attempt rev (Resolved r) = Resolved (unwrap_single j).
Proof.
  intros Hok Hs Hj. unfold attempt. rewrite Hok, Hj.
  destruct (Z.eqb_spec (resp_status r) 204); [contradiction | reflexivity].
Qed.

Lemma attempt_accepted rev (r : fetch_response num) :
  resp_ok r = true ->
  resp_status r = 204%Z \/ (exists j, resp_json r = Resolved j) ->
  exists j, attempt rev (Resolved r) = Resolved j.
Proof.
  intros Hok Hr. unfold attempt. rewrite Hok.
  destruct (resp_status r =? 204)%Z eqn:Hs; [eexists; reflexivity |].
  destruct Hr as [Hr | [j Hj]].
  - rewrite Hr in Hs. discriminate Hs.
  - rewrite Hj. eexists. reflexivity.
Qed.

Ltac literal_tests :=
  repeat match goal with
    | |- context [is_string (Some (JStr ?a)) ?b] =>
        let v := eval vm_compute in (@is_string num (Some (JStr a)) b) in
        change (@is_string num (Some (JStr a)) b) with v
    end.

(** X13.  The balance query that finds its one row answers with the columns
    of that row under the names of the envelope.  The later revision
    passes every column on as it is.  The earlier revision replaces a
    falsy [join_status] by ['join'] and a falsy [ads_left] by [300]: an
    account with no ads left is reported with 300 of them.  For every
    user that has a string form [id], the one the filter is built from. *)
Theorem balance_of_one_row rev env net props id r row p u t js al :
  let userId := get_prop props "userId" in
  truthy userId = true ->
  to_string userId = Resolved id ->
  get_prop props "action" = Some (JStr "getBalanceAndTaskStatus") ->
  passes_guard rev env = true ->
  net 1 (fetchOptions_of rev env "users" "GET" JNull
           ("id=eq." ++ id ++ "&select=points,usdt,ticket,join_status,ads_left"))
    = Resolved r ->
  resp_ok r = true ->
  resp_status r <> 204%Z ->
  resp_json r = Resolved (JArr [JObj row]) ->
  get_prop row "points" = Some p ->
  get_prop row "usdt" = Some u ->
  get_prop row "ticket" = Some t ->
  get_prop row "join_status" = Some js ->
  get_prop row "ads_left" = Some al ->
  response (handler_of rev env net (post (JObj props))) =
    {| res_status := 200;
       res_headers :=
         [("Access-Control-Allow-Origin", "*");
          ("Access-Control-Allow-Methods", "POST, OPTIONS");
          ("Access-Control-Allow-Headers", "Content-Type, Authorization");
          ("Content-Type", "application/json")];
       res_body :=
         Some (JObj [("ok", JBool true);
                     ("action", JStr "getBalanceAndTaskStatus");
                     ("points", p); ("usdt", u); ("ticket", t);
                     ("joinTaskStatus",
                      match rev with
                      | later => js
                      | earlier => if truthy_json js then js else JStr "join"
                      end);
                     ("adsLeft",
                      match rev with
                      | later => al
                      | earlier =>
                          if truthy_json al then al else JNum (num_of_Z 300)
                      end)]) |}.
Proof.
  intros userId Hu Hid Ha Hg Hnet Hok Hs Hj Hp Husdt Ht Hjs Hal.
  assert (Ha' : truthy (get_prop props "action") = true) by (rewrite Ha; reflexivity).
  rewrite handler_post by reflexivity.
  rewrite (try_block_checked rev env net props Hu Ha').
  rewrite logAction_run, Hg. cbv zeta. cbn [snd]. fold userId. rewrite Ha.
  destruct rev; cbn [dispatch_of];
    [unfold Earlier.dispatch, Earlier.case_getBalanceAndTaskStatus;
     change (Earlier.callSupabase env net) with (callSupabase_of earlier env net)
    | unfold Later.dispatch, Later.case_getBalanceAndTaskStatus;
      change (Later.callSupabase env net) with (callSupabase_of later env net)];
    literal_tests; cbv iota; unfold bind, print, await; rewrite Hid;
    cbv iota beta;
    rewrite callSupabase_run, Hg; cbv zeta;
    cbn [issued body_read];
    rewrite Hnet, (attempt_json _ r _ Hok Hs Hj);
    cbn [rethrown unwrap_single truthy_json negb dot];
    rewrite Hp, Husdt, Ht, Hjs, Hal; unfold or_else; cbn [truthy];
    try destruct (truthy_json js); try destruct (truthy_json al); reflexivity.
Qed.

(** X14.  The audit write of a request that passed the check is the first
    request to go out, right after the body was read; it is a [POST] to
    the audit table whose row holds the action, the user and, as
    [payload], the whole body as it came in. *)
Theorem audit_row_holds_the_whole_body rev env net props u a :
  get_prop props "userId" = Some u ->
  get_prop props "action" = Some a ->
  truthy_json u = true ->
  truthy_json a = true ->
  passes_guard rev env = true ->
  exists rq rest,
    trace (final (handler_of rev env net (post (JObj props))))
    = EvReadBody :: EvFetch rq :: rest
    /\ rq_method rq = "POST"
    /\ rq_url rq = audit_url env
    /\ rq_body rq
       = Some (JObj [("action", a); ("user_id", u); ("payload", JObj props)]).
Proof.
  intros Hu Ha Htu Hta Hg.
  assert (Hu' : truthy (get_prop props "userId") = true) by now rewrite Hu.
  assert (Ha' : truthy (get_prop props "action") = true) by now rewrite Ha.
  destruct (checked_run rev env net props Hu' Ha') as (r & added & _ & -> & _).
  exists (audit_request rev env (Some u) (Some a) (JObj props)).
  unfold after_audit. rewrite Hg, Hu, Ha. cbv zeta.
  destruct r as [responseData | m]; eexists;
    (split; [cbn [final extend log_error trace app]; reflexivity |]);
    destruct rev; repeat split; reflexivity.
Qed.

(** X15.  What the audit write leaves in the background goes with its
    outcome alone: nothing when the gateway call of the audit write
    resolves; when it rejects, the line of the gateway with the cause,
    and then what the [.catch] callback of [logAction] does: its line,
    the label followed by the rethrown message, or, when the action (in
    the earlier revision also the user) has no string form, the
    rejection that building the label throws and nobody handles.  The
    [switch] adds nothing. *)
Theorem audit_diagnostics rev env net props :
  let userId := get_prop props "userId" in
  let action := get_prop props "action" in
  truthy userId = true ->
  truthy action = true ->
  passes_guard rev env = true ->
  let left_behind :=
    background (final (handler_of rev env net (post (JObj props)))) in
  match fst (callSupabase_of rev env net "actions_log" "POST"
               (audit_entry userId action (JObj props)) "" body_read) with
  | Resolved _ => left_behind = []
  | Rejected m =>
      exists cause,
        m = "Database operation failed: " ++ cause
        /\ left_behind
           = [EvConsoleError ["Supabase Call Failed:"; cause];
              match to_string action with
              | Rejected thrown => EvUnhandledRejection thrown
              | Resolved a =>
                  match rev with
                  | later =>
                      EvConsoleError ["Failed to log action " ++ a ++ ":"; m]
                  | earlier =>
                      match to_string userId with
                      | Rejected thrown => EvUnhandledRejection thrown
                      | Resolved u =>
                          EvConsoleError
                            ["Failed to log action " ++ a ++ " for user "
                               ++ u ++ ":"; m]
                      end
                  end
              end]
  end.
Proof.
  intros userId action Hu Ha Hg left_behind. subst left_behind.
  destruct (checked_run rev env net props Hu Ha) as (r & added & _ & -> & _).
  fold userId action.
  rewrite callSupabase_run, Hg. cbv zeta. cbn [fst issued body_read].
  assert (Hbg : forall w m,
             background (log_error m (extend w added)) = background w)
    by reflexivity.
  assert (Hbg' : forall w, background (extend w added) = background w)
    by reflexivity.
  destruct r as [responseData | m0]; cbn [final]; rewrite ?Hbg, ?Hbg';
    unfold after_audit, audit_request; rewrite Hg; cbv zeta; cbn [background];
    destruct (attempt rev _) as [j | cause]; cbn [rethrown printed_by app];
    try reflexivity;
    exists cause; (split; [reflexivity |]);
    unfold logged_by, log_label;
    destruct (to_string action); destruct rev; try reflexivity;
    destruct (to_string userId); reflexivity.
Qed.

(** X16.  [addPoints] in the earlier revision sends the number it was given
    as the new value of [points], in a [PATCH] filtered by the string
    form [id] of the user, and reports success for every answer with a
    success status that is 204 or carries a body that parses as JSON: it
    does not look at what came back, so it also reports success when no
    row matched. *)
Theorem earlier_addPoints_reports_success env net props id n r :
  let userId := get_prop props "userId" in
  let rq := Earlier.fetchOptions env "users" "PATCH"
              (JObj [("points", JNum n)]) ("id=eq." ++ id) in
  truthy userId = true ->
  to_string userId = Resolved id ->
  get_prop props "action" = Some (JStr "addPoints") ->
  get_prop props "points" = Some (JNum n) ->
  num_lt_zero n = false ->
  net 1 rq = Resolved r ->
  resp_ok r = true ->
  resp_status r = 204%Z \/ (exists j, resp_json r = Resolved j) ->
  response (Earlier.handler env net (post (JObj props))) =
    {| res_status := 200;
       res_headers :=
         [("Access-Control-Allow-Origin", "*");
          ("Access-Control-Allow-Methods", "POST, OPTIONS");
          ("Access-Control-Allow-Headers", "Content-Type, Authorization");
          ("Content-Type", "application/json")];
       res_body :=
         Some (JObj [("ok", JBool true); ("action", JStr "addPoints");
                     ("message",
                      JStr ("Successfully added " ++ num_to_string n
                              ++ " points."))]) |}
  /\ requests_of (Earlier.handler env net (post (JObj props))) =
       [audit_request earlier env userId (Some (JStr "addPoints")) (JObj props);
        rq].
Proof.
  intros userId rq Hu Hid Ha Hpoints Hneg Hnet Hok Hr.
  assert (Ha' : truthy (get_prop props "action") = true) by (rewrite Ha; reflexivity).
  assert (Hdata : get_prop (rest_props ["userId"; "action"] props) "points"
                  = Some (JNum n)).
  { rewrite get_prop_rest_props_other by reflexivity. exact Hpoints. }
  destruct (attempt_accepted earlier r Hok Hr) as [j Hj].
  unfold requests_of.
  change (Earlier.handler env net) with (handler_of earlier env net).
  rewrite !handler_post by reflexivity.
  rewrite !(try_block_checked _ env net props Hu Ha').
  rewrite !logAction_run. cbv zeta. cbn [snd passes_guard]. fold userId.
  rewrite Ha. cbn [dispatch_of].
  unfold Earlier.dispatch, Earlier.case_addPoints.
  change (Earlier.callSupabase env net) with (callSupabase_of earlier env net).
  literal_tests. cbv iota zeta. rewrite Hdata. unfold bind, print, await.
  rewrite Hid.
  change (is_number (Some (JNum n))) with true.
  change (lt_zero (Some (JNum n))) with (num_lt_zero n). rewrite Hneg.
  cbn [negb orb]. cbv iota beta.
  rewrite callSupabase_run. cbn [passes_guard]. cbv zeta.
  cbn [issued body_read stringify_object fetchOptions_of].
  fold rq. rewrite Hnet, Hj. split; reflexivity.
Qed.

(** X17.  [claimTaskReward] in the earlier revision succeeds or fails on the
    truthiness of what the gateway returns for its [PATCH]: a falsy value
    ([null], [false], [0], the empty string, alone or as the one element
    of an array) gives the claim-failed error with status 500, anything
    else, the empty row-set included, gives the success message.  For
    every user that has a string form [id], the one the filter is built
    from. *)
Theorem earlier_claim_goes_by_truthiness env net props id n r j :
  let userId := get_prop props "userId" in
  truthy userId = true ->
  to_string userId = Resolved id ->
  get_prop props "action" = Some (JStr "claimTaskReward") ->
  get_prop props "task" = Some (JStr "joinChannel") ->
  get_prop props "reward" = Some (JNum n) ->
  net 1 (Earlier.fetchOptions env "users" "PATCH"
           (JObj [("ticket", JNum n); ("join_status", JStr "claimed")])
           ("id=eq." ++ id ++ "&join_status=eq.check"))
    = Resolved r ->
  resp_ok r = true ->
  resp_status r <> 204%Z ->
  resp_json r = Resolved j ->
  response (Earlier.handler env net (post (JObj props))) =
    {| res_status := if truthy_json (unwrap_single j) then 200 else 500;
       res_headers :=
         [("Access-Control-Allow-Origin", "*");
          ("Access-Control-Allow-Methods", "POST, OPTIONS");
          ("Access-Control-Allow-Headers", "Content-Type, Authorization");
          ("Content-Type", "application/json")];
       res_body :=
         Some (JObj
                 (if truthy_json (unwrap_single j) then
                    [("ok", JBool true); ("action", JStr "claimTaskReward");
                     ("message",
                      JStr ("Reward of " ++ num_to_string n
                              ++ " tickets claimed for joinChannel."))]
                  else
                    [("ok", JBool false);
                     ("error",
                      JStr "Claim failed. Task not ready or already claimed.")]))
    |}.
Proof.
  intros userId Hu Hid Ha Htask Hreward Hnet Hok Hs Hj.
  assert (Ha' : truthy (get_prop props "action") = true) by (rewrite Ha; reflexivity).
  assert (Hd1 : get_prop (rest_props ["userId"; "action"] props) "task"
                = Some (JStr "joinChannel")).
  { rewrite get_prop_rest_props_other by reflexivity. exact Htask. }
  assert (Hd2 : get_prop (rest_props ["userId"; "action"] props) "reward"
                = Some (JNum n)).
  { rewrite get_prop_rest_props_other by reflexivity. exact Hreward. }
  change (Earlier.handler env net) with (handler_of earlier env net).
  rewrite !handler_post by reflexivity.
  rewrite !(try_block_checked _ env net props Hu Ha').
  rewrite !logAction_run. cbv zeta. cbn [snd passes_guard]. fold userId.
  rewrite Ha. cbn [dispatch_of].
  unfold Earlier.dispatch, Earlier.case_claimTaskReward.
  change (Earlier.callSupabase env net) with (callSupabase_of earlier env net).
  cbv zeta. rewrite Hd1, Hd2. literal_tests. cbv iota.
  unfold bind, print, await. rewrite Hid.
  change (is_number (Some (JNum n))) with true.
  cbn [negb orb]. cbv iota beta.
  rewrite callSupabase_run. cbn [passes_guard]. cbv zeta.
  cbn [issued body_read stringify_object fetchOptions_of].
  rewrite Hnet, (attempt_json _ r _ Hok Hs Hj). cbn [rethrown].
  destruct (truthy_json (unwrap_single j)); reflexivity.
Qed.

End ActionsMore.

(* ================================================================== *)
(** * The further properties at sample inputs *)
(* ================================================================== *)

Lemma request_headers_witness :
  rq_headers (fetchOptions_of earlier sample_env "users" "PATCH" (JNull : json Z) "id=eq.1")
  = app (base_headers sample_env) [("Prefer", "return=representation")].
Proof.
  refine (proj1 (proj2 (request_headers earlier sample_env "users" "PATCH"
                          (JNull : json Z) "id=eq.1")) _).
  reflexivity.
Defined.

Lemma callSupabase_one_request_witness :
  issued (snd (callSupabase_of later sample_env net_down
                 "users" "GET" JNull "id=eq.1" start)) = 1.
Proof.
  refine (proj1 (proj2 (callSupabase_one_request later sample_env net_down
                          "users" "GET" JNull "id=eq.1" start _))).
  reflexivity.
Defined.

Lemma callSupabase_succeeds_iff_witness :
  exists j, fst (callSupabase_of later sample_env net_no_rows
                   "users" "GET" JNull "id=eq.1" start) = Resolved j.
Proof.
  refine (proj2 (callSupabase_succeeds_iff later sample_env net_no_rows
                   "users" "GET" JNull "id=eq.1" start _) _).
  - reflexivity.
  - exists empty_rowset. split; [reflexivity |]. split; [reflexivity |].
    right. exists (JArr []). reflexivity.
Defined.

Lemma callSupabase_reports_status_witness :
  fst (callSupabase_of later sample_env net_not_found
         "users" "GET" JNull "id=eq.1" start)
  = Rejected "Database operation failed: Supabase API Error 404: Not Found".
Proof.
  refine (callSupabase_reports_status later sample_env net_not_found
            "users" "GET" JNull "id=eq.1" start not_found "Not Found" _ _ _ _);
    reflexivity.
Defined.


Lemma later_unconfigured_sends_nothing_witness :
  requests_of (Later.handler env_without_key net_no_rows (post (JObj balance_body)))
  = [].
Proof.
  refine (proj1 (later_unconfigured_sends_nothing env_without_key net_no_rows
                   (post (JObj balance_body)) _)).
  reflexivity.
Defined.

Lemma later_placeholders_ignore_the_service_witness :
  response (Later.handler sample_env net_no_rows (post (JObj watchAd_body)))
  = response (Later.handler env_without_key net_down (post (JObj watchAd_body))).
Proof.
  refine (later_placeholders_ignore_the_service sample_env env_without_key
            net_no_rows net_down watchAd_body _ _ _); reflexivity.
Defined.

Lemma balance_of_one_row_witness :
  response (handler_of earlier sample_env net_one_row (post (JObj balance_body)))
  = json_response 200
      (JObj [("ok", JBool true);
             ("action", JStr "getBalanceAndTaskStatus");
             ("points", JNum 10%Z); ("usdt", JNum 0%Z); ("ticket", JNum 2%Z);
             ("joinTaskStatus", JStr "join");
             ("adsLeft", JNum 300%Z)]).
Proof.
  refine (balance_of_one_row earlier sample_env net_one_row balance_body "1"
            one_row account_row (JNum 10%Z) (JNum 0%Z) (JNum 2%Z) (JStr "join")
            (JNum 0%Z) _ _ _ _ _ _ _ _ _ _ _ _ _);
    try reflexivity; discriminate.
Defined.

Lemma audit_row_holds_the_whole_body_witness :
  exists rq rest,
    trace (final (handler_of later sample_env net_no_rows (post (JObj unknown_body))))
    = EvReadBody :: EvFetch rq :: rest
    /\ rq_method rq = "POST"
    /\ rq_url rq = audit_url sample_env
    /\ rq_body rq
       = Some (JObj [("action", JStr "unknownThing"); ("user_id", JNum 1%Z);
                     ("payload", JObj unknown_body)]).
Proof.
  refine (audit_row_holds_the_whole_body later sample_env net_no_rows unknown_body
            (JNum 1%Z) (JStr "unknownThing") _ _ _ _ _); reflexivity.
Defined.

Lemma audit_diagnostics_witness :
  exists cause,
    "Database operation failed: fetch failed" = "Database operation failed: " ++ cause
    /\ background (final (handler_of later sample_env net_first_fails
                            (post (JObj balance_body))))
       = [EvConsoleError ["Supabase Call Failed:"; cause];
          EvConsoleError ["Failed to log action getBalanceAndTaskStatus:";
                          "Database operation failed: fetch failed"]].
Proof.
  refine (audit_diagnostics later sample_env net_first_fails balance_body _ _ _);
    reflexivity.
Defined.

Lemma earlier_addPoints_reports_success_witness :
  response (Earlier.handler sample_env net_no_rows (post (JObj addPoints_body)))
  = json_response 200
      (JObj [("ok", JBool true); ("action", JStr "addPoints");
             ("message", JStr "Successfully added 5 points.")]).
Proof.
  refine (proj1 (earlier_addPoints_reports_success sample_env net_no_rows
                   addPoints_body "1" 5%Z empty_rowset _ _ _ _ _ _ _ _));
    try reflexivity.
  right. exists (JArr []). reflexivity.
Defined.

Lemma earlier_claim_goes_by_truthiness_witness :
  response (Earlier.handler sample_env net_null (post (JObj claim_body)))
  = json_response 500
      (error_body "Claim failed. Task not ready or already claimed.").
Proof.
  refine (earlier_claim_goes_by_truthiness sample_env net_null claim_body "1"
            5%Z null_answer JNull _ _ _ _ _ _ _ _ _);
    try reflexivity; discriminate.
Defined.

(** The account of the specification's example, five ads left, in the
    later revision. *)
Example balance_of_the_example_account :
  res_body
    (response
       (Later.handler sample_env
          (fun _ _ =>
             Resolved
               {| resp_status := 200;
                  resp_json :=
                    Resolved
                      (JArr [JObj [("points", JNum 10%Z); ("usdt", JNum 0%Z);
                                   ("ticket", JNum 2%Z);
                                   ("join_status", JStr "join");
                                   ("ads_left", JNum 5%Z)]]);
                  resp_text := Rejected "body used already" |})
          (post (JObj balance_body))))
  = Some (JObj [("ok", JBool true);
                ("action", JStr "getBalanceAndTaskStatus");
                ("points", JNum 10%Z); ("usdt", JNum 0%Z); ("ticket", JNum 2%Z);
                ("joinTaskStatus", JStr "join"); ("adsLeft", JNum 5%Z)]).
Proof. reflexivity. Qed.
